(** * Customer dashboard: the record filtering, sorting and metric code

    A shallow embedding of the client-side record processing of the
    dashboard: the order list (filter, sort, batch statistics), the customer
    list (filter, sort, average order count) and the store-health loader
    (order trend, inactive customers, refund-heavy and at-risk segments).

    GraphQL nodes are records whose fields are exactly the selection set of
    the query that fetched them; a field the code guards with [?.], [||] or a
    truthiness test is an [option].  JavaScript numbers are [number] below
    (a rational or NaN or an infinity; IEEE rounding is not modelled), and a
    [TypeError] raised by a property read on [null] is the [TypeError]
    constructor of [result]. *)

From Stdlib Require Import ZArith QArith Bool List String Ascii Lia.
From Stdlib Require Import Qabs Qround Permutation Sorted OrderedTypeEx.
Import ListNotations.

Local Open Scope string_scope.
Local Open Scope list_scope.
Local Open Scope Z_scope.

(** ** JavaScript numbers *)

Inductive number : Type :=
| NaN
| PosInf
| NegInf
| Fin (q : Q).

Definition num_of_Z (z : Z) : number := Fin (inject_Z z).

Definition Qlt_bool (x y : Q) : bool := negb (Qle_bool y x).

(** [a < b] on numbers: false as soon as one side is NaN. *)
Definition num_lt (a b : number) : bool :=
  match a, b with
  | NaN, _ | _, NaN => false
  | PosInf, _ => false
  | _, NegInf => false
  | NegInf, _ => true
  | _, PosInf => true
  | Fin x, Fin y => Qlt_bool x y
  end.

Definition num_gt (a b : number) : bool := num_lt b a.

(** [a >= b]: the negation of [a < b] unless one side is NaN. *)
Definition num_ge (a b : number) : bool :=
  match a, b with
  | NaN, _ | _, NaN => false
  | _, _ => negb (num_lt a b)
  end.

Definition isNaN (a : number) : bool :=
  match a with NaN => true | _ => false end.

Definition num_add (a b : number) : number :=
  match a, b with
  | NaN, _ | _, NaN => NaN
  | PosInf, NegInf | NegInf, PosInf => NaN
  | PosInf, _ | _, PosInf => PosInf
  | NegInf, _ | _, NegInf => NegInf
  | Fin x, Fin y => Fin (x + y)%Q
  end.

Definition Qsign (x : Q) : comparison := Qnum x ?= 0.

Definition num_mul (a b : number) : number :=
  match a, b with
  | NaN, _ | _, NaN => NaN
  | Fin x, Fin y => Fin (x * y)%Q
  | Fin x, PosInf | PosInf, Fin x =>
      match Qsign x with Eq => NaN | Gt => PosInf | Lt => NegInf end
  | Fin x, NegInf | NegInf, Fin x =>
      match Qsign x with Eq => NaN | Gt => NegInf | Lt => PosInf end
  | PosInf, PosInf | NegInf, NegInf => PosInf
  | PosInf, NegInf | NegInf, PosInf => NaN
  end.

(** [a / b].  The divisors of this program are array lengths, so the zero
    divisor is the positive zero. *)
Definition num_div (a b : number) : number :=
  match a, b with
  | NaN, _ | _, NaN => NaN
  | Fin x, Fin y =>
      match Qsign y with
      | Eq => match Qsign x with Eq => NaN | Gt => PosInf | Lt => NegInf end
      | _ => Fin (x / y)%Q
      end
  | Fin _, _ => Fin 0
  | PosInf, Fin y => match Qsign y with Lt => NegInf | _ => PosInf end
  | NegInf, Fin y => match Qsign y with Lt => PosInf | _ => NegInf end
  | _, _ => NaN
  end.

(** The same numeric value (NaN taken as equal to itself: two NaN sort keys
    tie in a comparator). *)
Definition num_same (a b : number) : bool :=
  match a, b with
  | NaN, NaN | PosInf, PosInf | NegInf, NegInf => true
  | Fin x, Fin y => Qeq_bool x y
  | _, _ => false
  end.

(** ** Strings *)

(** Truthiness of a string: only the empty string is falsy. *)
Definition truthy (s : string) : bool :=
  match s with EmptyString => false | _ => true end.

(** Truthiness of a nullable string ([null] and [""] are falsy). *)
Definition truthy_opt (o : option string) : bool :=
  match o with Some s => truthy s | None => false end.

(** [o || ""] *)
Definition or_empty (o : option string) : string :=
  match o with Some s => s | None => "" end.

(** A nullable string inside a template literal: [null] prints as "null". *)
Definition template (o : option string) : string :=
  match o with Some s => s | None => "null" end.

(** [String.prototype.includes]: [sub] occurs in [s]. *)
Fixpoint includes (s sub : string) : bool :=
  if prefix sub s then true
  else match s with
       | EmptyString => false
       | String _ s' => includes s' sub
       end.

Definition lower_ascii (c : ascii) : ascii :=
  let n := nat_of_ascii c in
  if (65 <=? n)%nat && (n <=? 90)%nat then ascii_of_nat (n + 32) else c.

(** [String.prototype.toLowerCase] on the ASCII letters. *)
Fixpoint toLowerCase (s : string) : string :=
  match s with
  | EmptyString => EmptyString
  | String c s' => String (lower_ascii c) (toLowerCase s')
  end.

(** [s.split(' ')] *)
Fixpoint split_space_aux (cur : string) (s : string) : list string :=
  match s with
  | EmptyString => [cur]
  | String c s' =>
      if Ascii.eqb c " "%char then cur :: split_space_aux "" s'
      else split_space_aux (cur ++ String c "")%string s'
  end.

Definition split_space (s : string) : list string := split_space_aux "" s.

(** ** [parseInt(s, 10)] *)

Definition is_space (c : ascii) : bool :=
  let n := nat_of_ascii c in
  (n =? 32)%nat || ((9 <=? n)%nat && (n <=? 13)%nat).

Definition digit_of (c : ascii) : option Z :=
  let n := nat_of_ascii c in
  if (48 <=? n)%nat && (n <=? 57)%nat then Some (Z.of_nat (n - 48)) else None.

Fixpoint skip_spaces (s : string) : string :=
  match s with
  | String c s' => if is_space c then skip_spaces s' else s
  | EmptyString => EmptyString
  end.

(** The digits at the front of [s], accumulated in base ten; [None] when [s]
    does not start with a digit. *)
Fixpoint leading_digits (acc : option Z) (s : string) : option Z :=
  match s with
  | String c s' =>
      match digit_of c with
      | Some d =>
          leading_digits
            (Some (match acc with Some a => 10 * a + d | None => d end)) s'
      | None => acc
      end
  | EmptyString => acc
  end.

(** Every character of [s] is a decimal digit. *)
Fixpoint all_digits (s : string) : bool :=
  match s with
  | String c s' =>
      match digit_of c with Some _ => all_digits s' | None => false end
  | EmptyString => true
  end.

Definition parseInt (s : string) : number :=
  let s1 := skip_spaces s in
  let '(neg, s2) :=
    match s1 with
    | String "-"%char r => (true, r)
    | String "+"%char r => (false, r)
    | _ => (false, s1)
    end in
  match leading_digits None s2 with
  | Some n => num_of_Z (if neg then - n else n)
  | None => NaN
  end.

(** ** The host environment

    Functions of the JavaScript host whose results depend on the date
    grammar, on binary floating point or on locale-independent number
    formatting.  The program is a function of them. *)

Class Host : Type := {
  (** the time value of [new Date(s)], NaN for an invalid date *)
  Date_parse : string -> number;
  (** [parseFloat(s)] *)
  parseFloat : string -> number;
  (** [ToNumber] on a string (used by [<] between a string and a number) *)
  StringToNumber : string -> number;
  (** [x.toFixed(digits)] *)
  toFixed : number -> nat -> string
}.

(** ** Relational comparison of sort projections *)

Inductive sortval : Type :=
| SVundefined
| SVnull
| SVstring (s : string)
| SVnumber (n : number).

Section Comparison.
Context `{Host}.

Definition ToNumber (v : sortval) : number :=
  match v with
  | SVundefined => NaN
  | SVnull => Fin 0
  | SVstring s => StringToNumber s
  | SVnumber n => n
  end.

(** [a < b]: code-unit order on two strings, numeric order otherwise. *)
Definition js_lt (a b : sortval) : bool :=
  match a, b with
  | SVstring s, SVstring t => String.ltb s t
  | _, _ => num_lt (ToNumber a) (ToNumber b)
  end.

Definition js_gt (a b : sortval) : bool := js_lt b a.

(** The tail shared by both comparators:
    [if (aValue < bValue) return sortDirection === 'asc' ? -1 : 1;
     if (aValue > bValue) return sortDirection === 'asc' ? 1 : -1;
     return 0;] *)
Definition three_way (sortDirection : option string) (aValue bValue : sortval) : Z :=
  let asc := match sortDirection with Some d => (d =? "asc")%string | None => false end in
  if js_lt aValue bValue then (if asc then -1 else 1)
  else if js_gt aValue bValue then (if asc then 1 else -1)
  else 0.

End Comparison.

(** Two projections that hold the same value. *)
Definition sortval_same (a b : sortval) : bool :=
  match a, b with
  | SVundefined, SVundefined => true
  | SVnull, SVnull => true
  | SVstring s, SVstring t => (s =? t)%string
  | SVnumber x, SVnumber y => num_same x y
  | _, _ => false
  end.

(** ** [Array.prototype.sort]

    The sort of ECMAScript 2019 is stable; for a consistent comparator its
    result is the one stable ordering, which insertion from the right
    computes.  [compareFn a b <= 0] keeps [a] in front of [b].  The
    comparators of the two pages are consistent on a batch whose sort keys
    are all strings or all numbers other than NaN, and on a batch whose keys
    are all [undefined], where every pair ties.  For a comparator that is
    not consistent (a NaN or null sort key ties with keys that do not tie
    with one another) the language leaves the order to the implementation,
    and an engine may return another order than the one computed here, also
    for rows with equal keys: [Array_sort] stands for the host sort on
    batches with comparable keys only, and what is stated about the
    position of tied rows carries that hypothesis. *)

Section ArraySort.
Context {A : Type} (compareFn : A -> A -> Z).

Fixpoint sort_insert (x : A) (l : list A) : list A :=
  match l with
  | [] => [x]
  | y :: l' => if compareFn x y <=? 0 then x :: l else y :: sort_insert x l'
  end.

Definition Array_sort (l : list A) : list A := fold_right sort_insert [] l.

(** Adjacent elements are in comparator order. *)
Inductive ordered : list A -> Prop :=
| ordered_nil : ordered []
| ordered_one (x : A) : ordered [x]
| ordered_cons (x y : A) (l : list A) :
    compareFn x y <= 0 -> ordered (y :: l) -> ordered (x :: y :: l).

End ArraySort.

(** ** Arrays in the store

    An array is an object: the component holds a reference to the batch
    array of the loader.  [filter] allocates a new array, [sort] sorts the
    array it is called on in place. *)

Definition store (A : Type) : Type := list (list A).

Section Store.
Context {A : Type}.

Definition read (h : store A) (r : nat) : list A := nth r h [].

Definition alloc (h : store A) (a : list A) : nat * store A :=
  (List.length h, h ++ [a]).

Fixpoint write (h : store A) (r : nat) (a : list A) : store A :=
  match h, r with
  | [], _ => []
  | _ :: h', O => a :: h'
  | x :: h', S r' => x :: write h' r' a
  end.

(** [xs.filter(p)]: the reference of the new array *)
Definition Array_filter_in (h : store A) (xs : nat) (p : A -> bool)
  : nat * store A :=
  alloc h (filter p (read h xs)).

(** [xs.sort(compareFn)] *)
Definition Array_sort_in (h : store A) (xs : nat) (compareFn : A -> A -> Z)
  : store A :=
  write h xs (Array_sort compareFn (read h xs)).

End Store.

(** ** Results of code that may raise *)

Inductive result (A : Type) : Type :=
| Ok (a : A)
| TypeError (msg : string).
Arguments Ok {A} a.
Arguments TypeError {A} msg.

Definition bind {A B : Type} (r : result A) (k : A -> result B) : result B :=
  match r with
  | Ok a => k a
  | TypeError m => TypeError m
  end.

Notation "x <- r ;; k" := (bind r (fun x => k))
  (at level 61, r at next level, right associativity).

(** [xs.map(f)] where [f] may raise: the first exception aborts the map. *)
Fixpoint mapM {A B : Type} (f : A -> result B) (l : list A) : result (list B) :=
  match l with
  | [] => Ok []
  | x :: l' => y <- f x ;; ys <- mapM f l' ;; Ok (y :: ys)
  end.

(** [sortSelected[0].split(' ')] destructured into [sortKey, sortDirection]. *)
Definition sort_selection (sortSelected : list string)
  : option (string * option string) :=
  match sortSelected with
  | [] => None
  | s0 :: _ =>
      let parts := split_space s0 in
      Some (hd "" parts, nth_error parts 1)
  end.

(** [v === lit] for a nullable string. *)
Definition strict_eq (v : option string) (lit : string) : bool :=
  match v with Some s => (s =? lit)%string | None => false end.

(** [xs.filter(p).length] *)
Definition count {A : Type} (p : A -> bool) (l : list A) : Z :=
  Z.of_nat (List.length (filter p l)).

(** * The order list (src/unnamed/part_001) *)

Module Orders.

Record CustomerRef : Type := {
  firstName : option string;
  lastName : option string
}.

Record Money : Type := {
  amount : string;
  currencyCode : string
}.

Record TotalPriceSet : Type := {
  shopMoney : option Money
}.

Record LineItem : Type := {
  title : string;
  quantity : Z
}.

(** A node of the OrdersData query. *)
Record Order : Type := {
  id : string;
  name : option string;
  displayFulfillmentStatus : option string;
  displayFinancialStatus : option string;
  processedAt : string;
  totalPriceSet : option TotalPriceSet;
  customer : option CustomerRef;
  lineItems : list LineItem;
  cancelReason : option string
}.

(** The filter and sort state of the component. *)
Record Query : Type := {
  queryValue : string;
  statusFilter : list string;
  dateFilter : string;
  productFilter : string;
  sortSelected : list string
}.

Record Stats : Type := {
  total : Z;
  cancelled : Z;
  pending : Z;
  highRisk : bool
}.

Section WithHost.
Context `{Host}.

(** The callback of [orders.filter]. *)
Definition orderMatches (q : Query) (order : Order) : bool :=
  let orderName := toLowerCase (or_empty (name order)) in
  let customerName :=
    match customer order with
    | Some c => toLowerCase (template (firstName c) ++ " " ++ template (lastName c))%string
    | None => ""
    end in
  let query := toLowerCase (queryValue q) in
  if truthy query && negb (includes orderName query)
     && negb (includes customerName query) then false
  else if (0 <? Z.of_nat (List.length (statusFilter q)))
          && negb (match displayFinancialStatus order with
                   | Some st => existsb (String.eqb (toLowerCase st)) (statusFilter q)
                   | None => false
                   end) then false
  else if truthy (dateFilter q)
          && (let filterDate := Date_parse (dateFilter q) in
              let orderDate := Date_parse (processedAt order) in
              num_lt orderDate filterDate) then false
  else if truthy (productFilter q)
          && negb (existsb (fun node =>
                              includes (toLowerCase (title node))
                                       (toLowerCase (productFilter q)))
                           (lineItems order)) then false
  else true.

(** [parseFloat(a.totalPriceSet?.shopMoney?.amount || 0)] *)
Definition totalAmount (a : Order) : number :=
  match totalPriceSet a with
  | Some tps =>
      match shopMoney tps with
      | Some m => if truthy (amount m) then parseFloat (amount m) else Fin 0
      | None => Fin 0
      end
  | None => Fin 0
  end.

(** [aValue] (and [bValue]) of the comparator for a sort key. *)
Definition sortValue (sortKey : string) (a : Order) : sortval :=
  if (sortKey =? "order")%string then
    match name a with Some s => SVstring s | None => SVnull end
  else if (sortKey =? "date")%string then SVnumber (Date_parse (processedAt a))
  else if (sortKey =? "total")%string then SVnumber (totalAmount a)
  else SVundefined.

Definition compareOrders (sortKey : string) (sortDirection : option string)
  (a b : Order) : Z :=
  three_way sortDirection (sortValue sortKey a) (sortValue sortKey b).

Definition filteredOrders (orders : list Order) (q : Query) : list Order :=
  let filtered := filter (orderMatches q) orders in
  match sort_selection (sortSelected q) with
  | Some (sortKey, sortDirection) =>
      Array_sort (compareOrders sortKey sortDirection) filtered
  | None => filtered
  end.

End WithHost.

(** [stats]: the batch statistics, computed from [orders]. *)
Definition isCancelled (o : Order) : bool :=
  strict_eq (displayFinancialStatus o) "VOIDED"
  || strict_eq (displayFinancialStatus o) "REFUNDED"
  || truthy_opt (cancelReason o).

Definition isPending (o : Order) : bool :=
  strict_eq (displayFinancialStatus o) "PENDING".

(** The literal [0.1] is the double nearest to 1/10 and [cancelled / total]
    the double nearest to the quotient of two integers; rounding is
    monotone and the quotients of two array lengths other than 1/10 are
    further from 1/10 than one rounding step, so the comparison of the
    doubles is the comparison of the rationals. *)
Definition stats (orders : list Order) : Stats :=
  let total := Z.of_nat (List.length orders) in
  let cancelled := count isCancelled orders in
  let pending := count isPending orders in
  let highRisk :=
    num_gt (num_div (num_of_Z cancelled) (num_of_Z total)) (Fin (1 # 10)) in
  {| total := total; cancelled := cancelled; pending := pending;
     highRisk := highRisk |}.

(** What one render of the component hands to the page: the rows of the
    table and the statistics cards. *)
Record View : Type := {
  visibleRows : list Order;
  metrics : Stats
}.

Definition apply `{Host} (orders : list Order) (q : Query) : View :=
  {| visibleRows := filteredOrders orders q; metrics := stats orders |}.

(** One render of the component on the store: [orders] is the reference of
    the batch array; [filteredOrders] is computed first (a new array, sorted
    in place), then [stats] reads the batch. *)
Definition render `{Host} (h : store Order) (orders : nat) (q : Query)
  : (nat * Stats) * store Order :=
  let '(filtered, h1) := Array_filter_in h orders (orderMatches q) in
  let h2 :=
    match sort_selection (sortSelected q) with
    | Some (sortKey, sortDirection) =>
        Array_sort_in h1 filtered (compareOrders sortKey sortDirection)
    | None => h1
    end in
  ((filtered, stats (read h2 orders)), h2).

End Orders.

(** * The customer list (src/app/routes/app.customer.jsx) *)

(** What a summary card shows: a formatted string or a number. *)
Inductive display : Type :=
| DString (s : string)
| DNumber (n : number).

Module Customers.

Record Address : Type := {
  country : option string
}.

Record LastOrder : Type := {
  processedAt : string
}.

(** A node of the CustomersData query. *)
Record Customer : Type := {
  id : string;
  firstName : option string;
  lastName : option string;
  email : option string;
  defaultAddress : option Address;
  tags : option (list string);
  numberOfOrders : Z;
  lastOrder : option LastOrder;
  createdAt : string
}.

(** The filter and sort state of the component. *)
Record Query : Type := {
  queryValue : string;
  tagFilter : string;
  countryFilter : string;
  itemsOrderCount : string;
  lastOrderDateFilter : string;
  sortSelected : list string
}.

Section WithHost.
Context `{Host}.

Definition fullNameOf (c : Customer) : string :=
  (template (firstName c) ++ " " ++ template (lastName c))%string.

(** [customer.lastOrder?.processedAt] *)
Definition lastOrderProcessedAt (customer : Customer) : option string :=
  match lastOrder customer with
  | Some lo => Some (processedAt lo)
  | None => None
  end.

(** The callback of [customers.filter]. *)
Definition customerMatches (q : Query) (customer : Customer) : bool :=
  let fullName := toLowerCase (fullNameOf customer) in
  let email := toLowerCase (or_empty (email customer)) in
  let query := toLowerCase (queryValue q) in
  if truthy query && negb (includes fullName query)
     && negb (includes email query) then false
  else if truthy (tagFilter q)
          && (let tags := match tags customer with Some l => l | None => [] end in
              negb (existsb (fun tag => includes (toLowerCase tag)
                                                 (toLowerCase (tagFilter q)))
                            tags)) then false
  else if truthy (countryFilter q)
          && (let country :=
                or_empty (match defaultAddress customer with
                          | Some a => country a
                          | None => None
                          end) in
              negb (includes (toLowerCase country)
                             (toLowerCase (countryFilter q)))) then false
  else if truthy (itemsOrderCount q)
          && (let count := parseInt (itemsOrderCount q) in
              negb (isNaN count)
              && num_lt (num_of_Z (numberOfOrders customer)) count) then false
  else if truthy (lastOrderDateFilter q) then
    if negb (truthy_opt (lastOrderProcessedAt customer)) then true
    else
      let filterDate := Date_parse (lastOrderDateFilter q) in
      let orderDate := Date_parse (or_empty (lastOrderProcessedAt customer)) in
      if num_gt orderDate filterDate then false else true
  else true.

(** [aValue] (and [bValue]) of the comparator for a sort key. *)
Definition sortValue (sortKey : string) (a : Customer) : sortval :=
  if (sortKey =? "name")%string then SVstring (toLowerCase (fullNameOf a))
  else if (sortKey =? "date")%string then SVnumber (Date_parse (createdAt a))
  else SVundefined.

Definition compareCustomers (sortKey : string) (sortDirection : option string)
  (a b : Customer) : Z :=
  three_way sortDirection (sortValue sortKey a) (sortValue sortKey b).

Definition filteredCustomers (customers : list Customer) (q : Query)
  : list Customer :=
  let filtered := filter (customerMatches q) customers in
  match sort_selection (sortSelected q) with
  | Some (sortKey, sortDirection) =>
      Array_sort (compareCustomers sortKey sortDirection) filtered
  | None => filtered
  end.

(** The "Average Orders" card:
    [customers.length > 0
       ? (customers.reduce((acc, c) => acc + c.numberOfOrders, 0)
          / customers.length).toFixed(1)
       : 0] *)
Definition averageOrders (customers : list Customer) : display :=
  let len := Z.of_nat (List.length customers) in
  if 0 <? len then
    DString (toFixed
               (num_div
                  (num_of_Z (fold_left (fun acc c => acc + numberOfOrders c)
                                       customers 0))
                  (num_of_Z len)) 1)
  else DNumber (Fin 0).

End WithHost.

(** What one render of the component hands to the page: the rows of the
    table and the three summary cards. *)
Record View : Type := {
  visibleRows : list Customer;
  totalCustomers : Z;
  filteredCount : Z;
  average : display
}.

Definition apply `{Host} (customers : list Customer) (q : Query) : View :=
  {| visibleRows := filteredCustomers customers q;
     totalCustomers := Z.of_nat (List.length customers);
     filteredCount := Z.of_nat (List.length (filteredCustomers customers q));
     average := averageOrders customers |}.

(** The cards that do not read the filtered array. *)
Record BatchCards : Type := {
  cardTotal : Z;
  cardAverage : display
}.

(** One render of the component on the store: [customers] is the reference
    of the batch array; [filteredCustomers] is computed first (a new array,
    sorted in place), then the cards read the batch. *)
Definition render `{Host} (h : store Customer) (customers : nat) (q : Query)
  : (nat * BatchCards) * store Customer :=
  let '(filtered, h1) := Array_filter_in h customers (customerMatches q) in
  let h2 :=
    match sort_selection (sortSelected q) with
    | Some (sortKey, sortDirection) =>
        Array_sort_in h1 filtered (compareCustomers sortKey sortDirection)
    | None => h1
    end in
  ((filtered,
    {| cardTotal := Z.of_nat (List.length (read h2 customers));
       cardAverage := averageOrders (read h2 customers) |}), h2).

End Customers.

(** * The store-health loader (src/unnamed/part_002) *)

Module StoreHealth.

Record EmailAddress : Type := {
  emailAddress : string
}.

Record MoneyV2 : Type := {
  amount : string
}.

Record LastOrder : Type := {
  processedAt : string;
  lastDisplayFinancialStatus : option string
}.

(** [c.orders.edges[i].node] *)
Record RecentOrder : Type := {
  displayFinancialStatus : option string
}.

(** A customer node of the StoreHealthData query: its fields are the
    selection set of the query. *)
Record Customer : Type := {
  id : string;
  firstName : option string;
  lastName : option string;
  defaultEmailAddress : option EmailAddress;
  amountSpent : MoneyV2;
  numberOfOrders : Z;
  lastOrder : option LastOrder;
  orders : list RecentOrder
}.

(** An order node of the StoreHealthData query. *)
Record Order : Type := {
  orderId : string;
  orderProcessedAt : string;
  orderDisplayFinancialStatus : option string;
  cancelledAt : option string
}.

Record Metrics : Type := {
  ordersLast7d : Z;
  ordersPrev7d : Z;
  orderTrend : Z;
  orderTrendPercent : display;
  cancelled30d : Z;
  inactiveCount90 : Z;
  customersNoEmail : Z
}.

Record RefundHeavyRow : Type := {
  rh_id : string;
  rh_name : string;
  rh_email : option string;
  refunds : Z
}.

Record AtRiskRow : Type := {
  ar_id : string;
  ar_name : string;
  spent : option string;
  ar_lastOrder : string
}.

Record Lists : Type := {
  refundHeavy : list RefundHeavyRow;
  atRiskHighValue : list AtRiskRow
}.

Record LoaderData : Type := {
  metrics : Metrics;
  lists : Lists
}.

(** [c.email]: the customer nodes carry the properties the query selects,
    and it selects [defaultEmailAddress { emailAddress }], not [email]; the
    read of the missing property yields [undefined]. *)
Definition email (c : Customer) : option string := None.

(** [c.totalSpent?.amount]: the query selects [amountSpent { amount }], not
    [totalSpent]; [c.totalSpent] is [undefined] and so is the chain. *)
Definition totalSpentAmount (c : Customer) : option string := None.

Definition day_ms : Z := 24 * 60 * 60 * 1000.

Section WithHost.
Context `{Host}.

(** [parseFloat(c.totalSpent?.amount || 0)] *)
Definition spentOf (c : Customer) : number :=
  match totalSpentAmount c with
  | Some s => if truthy s then parseFloat s else Fin 0
  | None => Fin 0
  end.

Definition isRefundFlavored (o : RecentOrder) : bool :=
  strict_eq (displayFinancialStatus o) "REFUNDED"
  || strict_eq (displayFinancialStatus o) "PARTIALLY_REFUNDED".

Definition inactiveCustomers90 (now : Z) (customers : list Customer)
  : list Customer :=
  let ninetyDaysAgo := num_of_Z (now - 90 * day_ms) in
  filter (fun c =>
            match lastOrder c with
            | None => true
            | Some lo => num_lt (Date_parse (processedAt lo)) ninetyDaysAgo
            end) customers.

Definition noEmailCount (customers : list Customer) : Z :=
  count (fun c => negb (truthy_opt (email c)) || strict_eq (email c) "")
        customers.

Definition refundHeavyCustomers (customers : list Customer) : list Customer :=
  filter (fun c =>
            let refunds := count isRefundFlavored (orders c) in
            1 <? refunds) customers.

Definition totalSpentSum (customers : list Customer) : number :=
  fold_left (fun acc c => num_add acc (spentOf c)) customers (Fin 0).

(** [totalSpentSum / (customers.length || 1)] *)
Definition avgSpent (customers : list Customer) : number :=
  let len := Z.of_nat (List.length customers) in
  num_div (totalSpentSum customers) (num_of_Z (if len =? 0 then 1 else len)).

Definition atRiskCustomers (now : Z) (customers : list Customer)
  : list Customer :=
  let sixtyDaysAgo := num_of_Z (now - 60 * day_ms) in
  let avg := avgSpent customers in
  filter (fun c =>
            match lastOrder c with
            | None => false
            | Some lo =>
                let spent := spentOf c in
                let lastOrderDate := Date_parse (processedAt lo) in
                num_gt spent avg && num_lt lastOrderDate sixtyDaysAgo
            end) customers.

Definition nameOf (c : Customer) : string :=
  (template (firstName c) ++ " " ++ template (lastName c))%string.

(** [o.node.displayFinancialStatus.includes('REFUNDED')]: the method call
    on an absent status raises. *)
Definition statusIncludesRefunded (o : RecentOrder) : result bool :=
  match displayFinancialStatus o with
  | Some st => Ok (includes st "REFUNDED")
  | None => TypeError "Cannot read properties of null (reading 'includes')"
  end.

(** [xs.filter(p).length] for a callback that may raise. *)
Fixpoint countM {A : Type} (p : A -> result bool) (l : list A) : result Z :=
  match l with
  | [] => Ok 0
  | x :: l' =>
      b <- p x ;;
      n <- countM p l' ;;
      Ok (if b : bool then 1 + n else n)
  end.

Definition refundHeavyRow (c : Customer) : result RefundHeavyRow :=
  n <- countM statusIncludesRefunded (orders c) ;;
  Ok {| rh_id := id c; rh_name := nameOf c; rh_email := email c;
        refunds := n |}.

Definition atRiskRow (c : Customer) : result AtRiskRow :=
  match lastOrder c with
  | Some lo =>
      Ok {| ar_id := id c; ar_name := nameOf c; spent := totalSpentAmount c;
            ar_lastOrder := processedAt lo |}
  | None => TypeError "Cannot read properties of null (reading 'processedAt')"
  end.

(** The loader after the fetch: [now] is the reading of the clock taken by
    [new Date()], [customers] and [orders] the nodes of the response. *)
Definition loader (now : Z) (customers : list Customer) (orders : list Order)
  : result LoaderData :=
  let sevenDaysAgo := num_of_Z (now - 7 * day_ms) in
  let fourteenDaysAgo := num_of_Z (now - 14 * day_ms) in
  let thirtyDaysAgo := num_of_Z (now - 30 * day_ms) in
  let ordersLast7d :=
    count (fun o => num_ge (Date_parse (orderProcessedAt o)) sevenDaysAgo)
          orders in
  let ordersPrev7d :=
    count (fun o =>
             let d := Date_parse (orderProcessedAt o) in
             num_ge d fourteenDaysAgo && num_lt d sevenDaysAgo) orders in
  let orderTrend := ordersLast7d - ordersPrev7d in
  let orderTrendPercent :=
    if 0 <? ordersPrev7d then
      DString (toFixed (num_mul (num_div (num_of_Z orderTrend)
                                         (num_of_Z ordersPrev7d))
                                (num_of_Z 100)) 1)
    else DNumber (num_of_Z 100) in
  let cancelled30d :=
    count (fun o =>
             let d := Date_parse (orderProcessedAt o) in
             num_ge d thirtyDaysAgo
             && (strict_eq (orderDisplayFinancialStatus o) "REFUNDED"
                 || strict_eq (orderDisplayFinancialStatus o) "VOIDED"
                 || truthy_opt (cancelledAt o))) orders in
  refundHeavy <- mapM refundHeavyRow (refundHeavyCustomers customers) ;;
  atRiskHighValue <- mapM atRiskRow (atRiskCustomers now customers) ;;
  Ok {| metrics :=
          {| ordersLast7d := ordersLast7d;
             ordersPrev7d := ordersPrev7d;
             orderTrend := orderTrend;
             orderTrendPercent := orderTrendPercent;
             cancelled30d := cancelled30d;
             inactiveCount90 :=
               Z.of_nat (List.length (inactiveCustomers90 now customers));
             customersNoEmail := noEmailCount customers |};
        lists :=
          {| refundHeavy := refundHeavy;
             atRiskHighValue := atRiskHighValue |} |}.

End WithHost.

End StoreHealth.

(** * A reference host

    An instance of [Host] for running the model on concrete records: the
    date-time strings the API emits ([YYYY-MM-DD] and
    [YYYY-MM-DDTHH:mm:ss[.sss]Z], in UTC), decimal amounts without
    exponent, and [toFixed] by exact decimal rounding. *)

Module ReferenceHost.

(** Exactly [n] digits at the front of [s], and the rest. *)
Fixpoint take_digits (n : nat) (acc : Z) (s : string) : option (Z * string) :=
  match n with
  | O => Some (acc, s)
  | S n' =>
      match s with
      | String c s' =>
          match digit_of c with
          | Some d => take_digits n' (10 * acc + d) s'
          | None => None
          end
      | EmptyString => None
      end
  end.

Definition expect (c : ascii) (s : string) : option string :=
  match s with
  | String c' s' => if Ascii.eqb c c' then Some s' else None
  | EmptyString => None
  end.

(** Days from 1970-01-01 to the civil date [y-m-d] (proleptic Gregorian). *)
Definition days_from_civil (y m d : Z) : Z :=
  let y' := if m <=? 2 then y - 1 else y in
  let era := y' / 400 in
  let yoe := y' - era * 400 in
  let mp := (m + 9) mod 12 in
  let doy := (153 * mp + 2) / 5 + d - 1 in
  let doe := yoe * 365 + yoe / 4 - yoe / 100 + doy in
  era * 146097 + doe - 719468.

Definition opt_bind {A B : Type} (o : option A) (k : A -> option B) : option B :=
  match o with Some a => k a | None => None end.

Definition parse_time (s : string) : option Z :=
  opt_bind (take_digits 2 0 s) (fun '(hh, s) =>
  opt_bind (expect ":" s) (fun s =>
  opt_bind (take_digits 2 0 s) (fun '(mm, s) =>
  opt_bind (expect ":" s) (fun s =>
  opt_bind (take_digits 2 0 s) (fun '(ss, s) =>
  let '(ms, s) :=
    match opt_bind (expect "." s) (take_digits 3 0) with
    | Some r => r
    | None => (0, s)
    end in
  if (s =? "Z")%string && (hh <? 24) && (mm <? 60) && (ss <? 60)
  then Some (((hh * 60 + mm) * 60 + ss) * 1000 + ms)
  else None))))).

Definition parse_date_time (s : string) : option Z :=
  opt_bind (take_digits 4 0 s) (fun '(y, s) =>
  opt_bind (expect "-" s) (fun s =>
  opt_bind (take_digits 2 0 s) (fun '(m, s) =>
  opt_bind (expect "-" s) (fun s =>
  opt_bind (take_digits 2 0 s) (fun '(d, s) =>
  if (1 <=? m) && (m <=? 12) && (1 <=? d) && (d <=? 31) then
    let day := days_from_civil y m d * 86400000 in
    match s with
    | EmptyString => Some day
    | String "T"%char t => opt_bind (parse_time t) (fun ms => Some (day + ms))
    | _ => None
    end
  else None))))).

Definition date_parse (s : string) : number :=
  match parse_date_time s with
  | Some t => num_of_Z t
  | None => NaN
  end.

(** The digits at the front of [s] as a numerator and a count, and the
    rest of [s]. *)
Fixpoint digits_prefix (acc : Z) (n : nat) (s : string) : Z * nat * string :=
  match s with
  | String c s' =>
      match digit_of c with
      | Some d => digits_prefix (10 * acc + d) (S n) s'
      | None => (acc, n, s)
      end
  | EmptyString => (acc, n, s)
  end.

(** A decimal literal at the front of [s]: its value and the rest. *)
Definition decimal_prefix (s : string) : option (Q * string) :=
  let '(neg, s1) :=
    match s with
    | String "-"%char r => (true, r)
    | String "+"%char r => (false, r)
    | _ => (false, s)
    end in
  let '(ip, ni, s2) := digits_prefix 0 0 s1 in
  let '(fp, nf, s3) :=
    match s2 with
    | String "."%char r => digits_prefix 0 0 r
    | _ => (0, O, s2)
    end in
  match ni, nf with
  | O, O => None
  | _, _ =>
      let v := (inject_Z ip + inject_Z fp / inject_Z (10 ^ Z.of_nat nf))%Q in
      Some (Qred (if neg then - v else v)%Q, if (nf =? 0)%nat then s2 else s3)
  end.

Definition parse_float (s : string) : number :=
  match decimal_prefix (skip_spaces s) with
  | Some (v, _) => Fin v
  | None => NaN
  end.

Definition string_to_number (s : string) : number :=
  let s1 := skip_spaces s in
  match s1 with
  | EmptyString => Fin 0
  | _ =>
      match decimal_prefix s1 with
      | Some (v, rest) =>
          match skip_spaces rest with
          | EmptyString => Fin v
          | _ => NaN
          end
      | None => NaN
      end
  end.

Definition digit_char (d : Z) : ascii := ascii_of_nat (48 + Z.to_nat d).

(** The decimal digits of a natural number, most significant first;
    [fuel] bounds the number of digits. *)
Fixpoint digits_of (fuel : nat) (n : Z) (acc : string) : string :=
  match fuel with
  | O => acc
  | S fuel' =>
      let acc' := String (digit_char (n mod 10)) acc in
      if n / 10 =? 0 then acc' else digits_of fuel' (n / 10) acc'
  end.

Definition Z_to_string (n : Z) : string :=
  digits_of (S (Z.to_nat (Z.log2 (Z.abs n)))) (Z.abs n) "".

Fixpoint pad_left (width : nat) (s : string) : string :=
  if (String.length s <? width)%nat then
    match width with
    | O => s
    | S w => String "0"%char (pad_left w s)
    end
  else s.

Definition to_fixed (x : number) (digits : nat) : string :=
  match x with
  | NaN => "NaN"
  | PosInf => "Infinity"
  | NegInf => "-Infinity"
  | Fin q =>
      let scale := 10 ^ Z.of_nat digits in
      let a := Qabs q in
      let n := Qfloor (a * inject_Z scale + (1 # 2))%Q in
      let sign := if Qlt_bool q 0 && negb (n =? 0) then "-" else "" in
      let ip := Z_to_string (n / scale) in
      if (digits =? 0)%nat then (sign ++ ip)%string
      else (sign ++ ip ++ "."
            ++ pad_left digits (Z_to_string (n mod scale)))%string
  end.

#[export] Instance host : Host := {|
  Date_parse := date_parse;
  parseFloat := parse_float;
  StringToNumber := string_to_number;
  toFixed := to_fixed
|}.

End ReferenceHost.

(** * Specification-side definitions

    The segments and counts as the specification words them, over the
    fields the queries fetch; they are compared below with what the code
    computes. *)

Module Spec.

(** An order counts as cancelled or refunded when its financial status is
    REFUNDED or VOIDED or when it carries a cancellation reason. *)
Definition cancelledOrRefunded (o : Orders.Order) : bool :=
  match Orders.displayFinancialStatus o, Orders.cancelReason o with
  | Some st, reason =>
      (st =? "REFUNDED")%string || (st =? "VOIDED")%string
      || match reason with Some _ => true | None => false end
  | None, Some _ => true
  | None, None => false
  end.

Definition pendingOrder (o : Orders.Order) : bool :=
  match Orders.displayFinancialStatus o with
  | Some st => (st =? "PENDING")%string
  | None => false
  end.

(** The email of a store-health customer node is absent or empty. *)
Definition emailMissing (c : StoreHealth.Customer) : bool :=
  match StoreHealth.defaultEmailAddress c with
  | Some e => negb (truthy (StoreHealth.emailAddress e))
  | None => true
  end.

(** The minimum-order-count filter as the specification words it, to be
    compared with the filter of [Customers.customerMatches].

    "The given integer": the number a filter input denotes when the input,
    read as a whole, is a decimal numeral: an optional sign, digits, an
    optional fraction and an optional exponent.  An input that is no such
    numeral is "non-numeric" and gives [None]. *)
Definition exponent_mark (c : ascii) : bool :=
  (c =? "e")%char || (c =? "E")%char.

Definition signed (s : string) : bool * string :=
  match s with
  | String "-"%char r => (true, r)
  | String "+"%char r => (false, r)
  | _ => (false, s)
  end.

Definition givenNumber (s : string) : option Q :=
  let '(neg, s1) := signed s in
  let '(ip, ni, s2) := ReferenceHost.digits_prefix 0 0 s1 in
  let '(fp, nf, s3) :=
    match s2 with
    | String "."%char r => ReferenceHost.digits_prefix 0 0 r
    | _ => (0, O, s2)
    end in
  match ni with
  | O => None
  | S _ =>
      let m := (inject_Z ip + inject_Z fp / inject_Z (10 ^ Z.of_nat nf))%Q in
      let v := (if neg then - m else m)%Q in
      match s3 with
      | EmptyString => Some (Qred v)
      | String c r =>
          if exponent_mark c then
            let '(eneg, r1) := signed r in
            match ReferenceHost.digits_prefix 0 0 r1 with
            | (e, S _, EmptyString) =>
                Some (Qred (if eneg then v / inject_Z (10 ^ e)
                            else v * inject_Z (10 ^ e))%Q)
            | _ => None
            end
          else None
      end
  end.

(** "Record passes if lifetime order count >= the given integer;
    non-numeric filter input is ignored (treated as absent)." *)
Definition passesMinOrderCount (input : string) (numberOfOrders : Z) : bool :=
  match givenNumber input with
  | Some x => Qle_bool x (inject_Z numberOfOrders)
  | None => true
  end.

Section WithHost.
Context `{Host}.

(** The lifetime amount spent of a store-health customer node. *)
Definition lifetimeSpent (c : StoreHealth.Customer) : number :=
  parseFloat (StoreHealth.amount (StoreHealth.amountSpent c)).

(** Total spend across the batch divided by the batch size, 0 for an empty
    batch. *)
Definition averageSpend (customers : list StoreHealth.Customer) : number :=
  match customers with
  | [] => Fin 0
  | _ =>
      num_div
        (fold_left (fun acc c => num_add acc (lifetimeSpent c)) customers (Fin 0))
        (num_of_Z (Z.of_nat (List.length customers)))
  end.

(** A customer with a last order, an above-average lifetime spend and a
    last order more than 60 days before [now]. *)
Definition atRiskHighValue (now : Z) (customers : list StoreHealth.Customer)
  (c : StoreHealth.Customer) : bool :=
  match StoreHealth.lastOrder c with
  | Some lo =>
      num_gt (lifetimeSpent c) (averageSpend customers)
      && num_lt (Date_parse (StoreHealth.processedAt lo))
                (num_of_Z (now - 60 * StoreHealth.day_ms))
  | None => false
  end.

End WithHost.

End Spec.

(** The sort projection a query selects for an order or a customer:
    [aValue] of the comparator, [undefined] when no sort is selected. *)
Definition orderProjection `{Host} (q : Orders.Query) (o : Orders.Order) : sortval :=
  match sort_selection (Orders.sortSelected q) with
  | Some (sortKey, _) => Orders.sortValue sortKey o
  | None => SVundefined
  end.

Definition customerProjection `{Host} (q : Customers.Query) (c : Customers.Customer)
  : sortval :=
  match sort_selection (Customers.sortSelected q) with
  | Some (sortKey, _) => Customers.sortValue sortKey c
  | None => SVundefined
  end.

(** [a] occurs before [b] in [l]. *)
Definition precedes {A : Type} (a b : A) (l : list A) : Prop :=
  exists l1 l2 l3, l = l1 ++ a :: l2 ++ b :: l3.

(** The customer query with one filter cleared. *)
Definition withoutOrderCount (q : Customers.Query) : Customers.Query :=
  {| Customers.queryValue := Customers.queryValue q;
     Customers.tagFilter := Customers.tagFilter q;
     Customers.countryFilter := Customers.countryFilter q;
     Customers.itemsOrderCount := "";
     Customers.lastOrderDateFilter := Customers.lastOrderDateFilter q;
     Customers.sortSelected := Customers.sortSelected q |}.

Definition withoutLastOrderDate (q : Customers.Query) : Customers.Query :=
  {| Customers.queryValue := Customers.queryValue q;
     Customers.tagFilter := Customers.tagFilter q;
     Customers.countryFilter := Customers.countryFilter q;
     Customers.itemsOrderCount := Customers.itemsOrderCount q;
     Customers.lastOrderDateFilter := "";
     Customers.sortSelected := Customers.sortSelected q |}.

(** The cancellation reasons of a batch are values of the API's enumeration:
    when present they are not the empty string. *)
Definition reasonsAreEnumValues (orders : list Orders.Order) : Prop :=
  Forall (fun o => Orders.cancelReason o <> Some "") orders.

(** The last-order timestamp of a customer, when there is one, is a valid
    date-time string. *)
Definition lastOrderIsTimestamp `{Host} (c : Customers.Customer) : Prop :=
  forall lo, Customers.lastOrder c = Some lo ->
    Customers.processedAt lo <> ""
    /\ exists t, Date_parse (Customers.processedAt lo) = Fin t.

(** * Sample records *)

(** The scenario of ten orders, two of them VOIDED and none with a
    cancellation reason. *)
Definition plainOrder (st : string) : Orders.Order :=
  {| Orders.id := "gid://shopify/Order/1"; Orders.name := Some "#1001";
     Orders.displayFulfillmentStatus := Some "FULFILLED";
     Orders.displayFinancialStatus := Some st;
     Orders.processedAt := "2024-01-10T12:00:00Z";
     Orders.totalPriceSet := None; Orders.customer := None;
     Orders.lineItems := []; Orders.cancelReason := None |}.

Definition tenOrders : list Orders.Order :=
  [plainOrder "VOIDED"; plainOrder "PAID"; plainOrder "PAID"; plainOrder "PAID";
   plainOrder "VOIDED"; plainOrder "PENDING"; plainOrder "PAID"; plainOrder "PAID";
   plainOrder "PAID"; plainOrder "PAID"].

(** The order query without any filter, and the one that keeps the voided
    orders, sorted by name. *)
Definition noOrderQuery : Orders.Query :=
  {| Orders.queryValue := ""; Orders.statusFilter := [];
     Orders.dateFilter := ""; Orders.productFilter := "";
     Orders.sortSelected := ["date desc"] |}.

Definition statusQuery : Orders.Query :=
  {| Orders.queryValue := ""; Orders.statusFilter := ["voided"];
     Orders.dateFilter := ""; Orders.productFilter := "";
     Orders.sortSelected := ["order asc"] |}.

(** A customer of the customer list with three orders, with or without a
    last order. *)
Definition listedCustomer (lo : option string) : Customers.Customer :=
  {| Customers.id := "gid://shopify/Customer/7";
     Customers.firstName := Some "Ada"; Customers.lastName := Some "Byron";
     Customers.email := Some "ada@example.com";
     Customers.defaultAddress := Some {| Customers.country := Some "Canada" |};
     Customers.tags := Some ["vip"];
     Customers.numberOfOrders := 3;
     Customers.lastOrder :=
       match lo with
       | Some ts => Some {| Customers.processedAt := ts |}
       | None => None
       end;
     Customers.createdAt := "2023-03-01T09:30:00Z" |}.

Definition countQuery (minOrderCount : string) : Customers.Query :=
  {| Customers.queryValue := ""; Customers.tagFilter := "";
     Customers.countryFilter := ""; Customers.itemsOrderCount := minOrderCount;
     Customers.lastOrderDateFilter := "";
     Customers.sortSelected := ["date desc"] |}.

Definition lastOrderQuery (before : string) : Customers.Query :=
  {| Customers.queryValue := ""; Customers.tagFilter := "";
     Customers.countryFilter := ""; Customers.itemsOrderCount := "";
     Customers.lastOrderDateFilter := before;
     Customers.sortSelected := ["date desc"] |}.

(** Customer nodes of the store-health response. *)
Definition healthCustomer (ident : string) (mail : option string)
  (spentAmount : string) (lo : option string) (recent : list (option string))
  : StoreHealth.Customer :=
  {| StoreHealth.id := ident;
     StoreHealth.firstName := Some "Ada"; StoreHealth.lastName := Some "Byron";
     StoreHealth.defaultEmailAddress :=
       match mail with
       | Some m => Some {| StoreHealth.emailAddress := m |}
       | None => None
       end;
     StoreHealth.amountSpent := {| StoreHealth.amount := spentAmount |};
     StoreHealth.numberOfOrders := 4;
     StoreHealth.lastOrder :=
       match lo with
       | Some ts =>
           Some {| StoreHealth.processedAt := ts;
                   StoreHealth.lastDisplayFinancialStatus := Some "PAID" |}
       | None => None
       end;
     StoreHealth.orders :=
       map (fun st => {| StoreHealth.displayFinancialStatus := st |}) recent |}.

(** A high spender whose last order is a year old, next to a customer who
    never ordered. *)
Definition bigSpender : StoreHealth.Customer :=
  healthCustomer "gid://shopify/Customer/1" (Some "ada@example.com") "1000.0"
                 (Some "2023-01-01T00:00:00Z") [Some "PAID"].

Definition newcomer : StoreHealth.Customer :=
  healthCustomer "gid://shopify/Customer/2" (Some "bob@example.com") "0.0"
                 None [].

(** A customer with two refunded recent orders and one recent order
    without a financial status. *)
Definition refunder : StoreHealth.Customer :=
  healthCustomer "gid://shopify/Customer/3" (Some "eve@example.com") "20.0"
                 (Some "2023-12-20T00:00:00Z")
                 [Some "REFUNDED"; Some "REFUNDED"; None].

(** 2024-01-01T00:00:00Z and 2024-06-01T00:00:00Z as clock readings. *)
Definition newYear2024 : Z := 1704067200000.
Definition june2024 : Z := 1717200000000.

(** A customer whose last order is of 2023-12-01. *)
Definition decemberBuyer : StoreHealth.Customer :=
  healthCustomer "gid://shopify/Customer/4" (Some "dan@example.com") "50.0"
                 (Some "2023-12-01T00:00:00Z") [Some "PAID"].

(** ** Invocations

    What an invocation reads besides its arguments: the clock.  The three
    entry points of the engine as functions of the world they run in. *)
Record World : Type := {
  clock : Z
}.

Definition runOrders `{Host} (w : World) (h : store Orders.Order) (orders : nat)
  (q : Orders.Query) : (nat * Orders.Stats) * store Orders.Order :=
  Orders.render h orders q.

Definition runCustomers `{Host} (w : World) (h : store Customers.Customer)
  (customers : nat) (q : Customers.Query)
  : (nat * Customers.BatchCards) * store Customers.Customer :=
  Customers.render h customers q.

(** [const now = new Date()] reads the clock of the world. *)
Definition runStoreHealth `{Host} (w : World)
  (customers : list StoreHealth.Customer) (orders : list StoreHealth.Order)
  : result StoreHealth.LoaderData :=
  let now := clock w in
  StoreHealth.loader now customers orders.

(** * The controls, the export and the other pages *)

(** ** [split] on one character, [join], [pop] and number printing *)

(** [s.split(sep)] for a separator of one character. *)
Fixpoint split_on (sep : ascii) (s : string) : list string :=
  match s with
  | EmptyString => [""]
  | String c s' =>
      if Ascii.eqb c sep then "" :: split_on sep s'
      else match split_on sep s' with
           | p :: ps => String c p :: ps
           | [] => [String c ""]
           end
  end.

(** [xs.join(sep)] on an array of strings. *)
Fixpoint join (sep : string) (l : list string) : string :=
  match l with
  | [] => ""
  | x :: l' =>
      match l' with
      | [] => x
      | _ :: _ => (x ++ sep ++ join sep l')%string
      end
  end.

(** [c] occurs in [s]. *)
Fixpoint has_char (c : ascii) (s : string) : bool :=
  match s with
  | EmptyString => false
  | String c' s' => Ascii.eqb c' c || has_char c s'
  end.

(** [id.split('/').pop()] inside a template literal. *)
Definition lastSegment (id : string) : string :=
  match rev (split_on "/" id) with
  | seg :: _ => seg
  | [] => "undefined"
  end.

(** An integer inside a template literal. *)
Definition Z_toString (z : Z) : string :=
  if z <? 0 then ("-" ++ ReferenceHost.Z_to_string z)%string
  else ReferenceHost.Z_to_string z.

Definition newline : ascii := ascii_of_nat 10.

Definition dquote : ascii := ascii_of_nat 34.

(** [Date.prototype.toDateString], by the time value of the date. *)
Class DateFormat : Type := {
  toDateString : number -> string
}.

(** ** The controls of the order list (src/unnamed/part_001) *)

Module OrderControls.

(** [handleClearAll]: the four setters it calls; the sort selection stays. *)
Definition handleClearAll (q : Orders.Query) : Orders.Query :=
  {| Orders.queryValue := ""; Orders.statusFilter := [];
     Orders.dateFilter := ""; Orders.productFilter := "";
     Orders.sortSelected := Orders.sortSelected q |}.

Definition setStatusFilter (v : list string) (q : Orders.Query) : Orders.Query :=
  {| Orders.queryValue := Orders.queryValue q; Orders.statusFilter := v;
     Orders.dateFilter := Orders.dateFilter q;
     Orders.productFilter := Orders.productFilter q;
     Orders.sortSelected := Orders.sortSelected q |}.

Definition setProductFilter (v : string) (q : Orders.Query) : Orders.Query :=
  {| Orders.queryValue := Orders.queryValue q;
     Orders.statusFilter := Orders.statusFilter q;
     Orders.dateFilter := Orders.dateFilter q; Orders.productFilter := v;
     Orders.sortSelected := Orders.sortSelected q |}.

Definition setDateFilter (v : string) (q : Orders.Query) : Orders.Query :=
  {| Orders.queryValue := Orders.queryValue q;
     Orders.statusFilter := Orders.statusFilter q;
     Orders.dateFilter := v; Orders.productFilter := Orders.productFilter q;
     Orders.sortSelected := Orders.sortSelected q |}.

(** An applied-filter chip; [onRemove] is the state update its callback
    performs. *)
Record AppliedFilter : Type := {
  key : string;
  label : string;
  onRemove : Orders.Query -> Orders.Query
}.

Definition appliedFilters (q : Orders.Query) : list AppliedFilter :=
  (if 0 <? Z.of_nat (List.length (Orders.statusFilter q)) then
     [{| key := "status";
         label := ("Status: " ++ join ", " (Orders.statusFilter q))%string;
         onRemove := setStatusFilter [] |}]
   else [])
  ++ (if truthy (Orders.productFilter q) then
        [{| key := "product";
            label := ("Product: " ++ Orders.productFilter q)%string;
            onRemove := setProductFilter "" |}]
      else [])
  ++ (if truthy (Orders.dateFilter q) then
        [{| key := "date";
            label := ("After: " ++ Orders.dateFilter q)%string;
            onRemove := setDateFilter "" |}]
      else []).

(** The link of a row: [`shopify:admin/orders/${node.id.split('/').pop()}`] *)
Definition rowUrl (node : Orders.Order) : string :=
  ("shopify:admin/orders/" ++ lastSegment (Orders.id node))%string.

End OrderControls.

(** ** The controls and the export of the customer list
       (src/app/routes/app.customer.jsx) *)

Module CustomerControls.

Definition handleClearAll (q : Customers.Query) : Customers.Query :=
  {| Customers.queryValue := ""; Customers.tagFilter := "";
     Customers.countryFilter := ""; Customers.itemsOrderCount := "";
     Customers.lastOrderDateFilter := "";
     Customers.sortSelected := Customers.sortSelected q |}.

Definition setTagFilter (v : string) (q : Customers.Query) : Customers.Query :=
  {| Customers.queryValue := Customers.queryValue q; Customers.tagFilter := v;
     Customers.countryFilter := Customers.countryFilter q;
     Customers.itemsOrderCount := Customers.itemsOrderCount q;
     Customers.lastOrderDateFilter := Customers.lastOrderDateFilter q;
     Customers.sortSelected := Customers.sortSelected q |}.

Definition setCountryFilter (v : string) (q : Customers.Query) : Customers.Query :=
  {| Customers.queryValue := Customers.queryValue q;
     Customers.tagFilter := Customers.tagFilter q;
     Customers.countryFilter := v;
     Customers.itemsOrderCount := Customers.itemsOrderCount q;
     Customers.lastOrderDateFilter := Customers.lastOrderDateFilter q;
     Customers.sortSelected := Customers.sortSelected q |}.

Definition setItemsOrderCount (v : string) (q : Customers.Query) : Customers.Query :=
  {| Customers.queryValue := Customers.queryValue q;
     Customers.tagFilter := Customers.tagFilter q;
     Customers.countryFilter := Customers.countryFilter q;
     Customers.itemsOrderCount := v;
     Customers.lastOrderDateFilter := Customers.lastOrderDateFilter q;
     Customers.sortSelected := Customers.sortSelected q |}.

Definition setLastOrderDateFilter (v : string) (q : Customers.Query)
  : Customers.Query :=
  {| Customers.queryValue := Customers.queryValue q;
     Customers.tagFilter := Customers.tagFilter q;
     Customers.countryFilter := Customers.countryFilter q;
     Customers.itemsOrderCount := Customers.itemsOrderCount q;
     Customers.lastOrderDateFilter := v;
     Customers.sortSelected := Customers.sortSelected q |}.

Record AppliedFilter : Type := {
  key : string;
  label : string;
  onRemove : Customers.Query -> Customers.Query
}.

Definition appliedFilters (q : Customers.Query) : list AppliedFilter :=
  (if truthy (Customers.tagFilter q) then
     [{| key := "tag"; label := ("Tag: " ++ Customers.tagFilter q)%string;
         onRemove := setTagFilter "" |}]
   else [])
  ++ (if truthy (Customers.countryFilter q) then
        [{| key := "country";
            label := ("Country: " ++ Customers.countryFilter q)%string;
            onRemove := setCountryFilter "" |}]
      else [])
  ++ (if truthy (Customers.itemsOrderCount q) then
        [{| key := "orderCount";
            label := ("Orders >= " ++ Customers.itemsOrderCount q)%string;
            onRemove := setItemsOrderCount "" |}]
      else [])
  ++ (if truthy (Customers.lastOrderDateFilter q) then
        [{| key := "lastOrder";
            label := ("Last Order before "
                      ++ Customers.lastOrderDateFilter q)%string;
            onRemove := setLastOrderDateFilter "" |}]
      else []).

Definition headers : list string :=
  ["ID"; "Name"; "Email"; "Country"; "Tags"; "Orders"; "Last Order Date";
   "Joined Date"].

Section WithHost.
Context `{Host} `{DateFormat}.

(** One element of [rows] in [exportToCSV], each item as the template
    literal prints it. *)
Definition exportRow (node : Customers.Customer) : list string :=
  [ Customers.id node;
    (template (Customers.firstName node) ++ " "
     ++ template (Customers.lastName node))%string;
    (match Customers.email node with
     | Some e => if truthy e then e else ""
     | None => ""
     end);
    (match Customers.defaultAddress node with
     | Some a =>
         match Customers.country a with
         | Some c => if truthy c then c else ""
         | None => ""
         end
     | None => ""
     end);
    join ", " (match Customers.tags node with Some l => l | None => [] end);
    Z_toString (Customers.numberOfOrders node);
    (match Customers.lastOrder node with
     | Some lo =>
         if truthy (Customers.processedAt lo)
         then toDateString (Date_parse (Customers.processedAt lo))
         else "Never"
     | None => "Never"
     end);
    toDateString (Date_parse (Customers.createdAt node)) ].

Definition quoted (item : string) : string :=
  String dquote (item ++ String dquote "")%string.

Definition csvLine (row : list string) : string := join "," (map quoted row).

(** [csvContent] of [exportToCSV] for the filtered customers. *)
Definition csvContent (filteredCustomers : list Customers.Customer) : string :=
  join (String newline "")
       (join "," headers :: map (fun node => csvLine (exportRow node))
                                filteredCustomers).

Definition exportToCSV (customers : list Customers.Customer)
  (q : Customers.Query) : string :=
  csvContent (Customers.filteredCustomers customers q).

End WithHost.

Definition rowUrl (node : Customers.Customer) : string :=
  ("shopify:admin/customers/" ++ lastSegment (Customers.id node))%string.

End CustomerControls.

(** ** The product page (src/unnamed/part_000) *)

Module Products.

Record Image : Type := {
  url : string;
  altText : option string
}.

Record Variant : Type := {
  sku : option string;
  price : option string
}.

(** A node of the GetProducts query. *)
Record Product : Type := {
  id : string;
  title : string;
  status : string;
  vendor : string;
  createdAt : string;
  descriptionHtml : option string;
  totalInventory : Z;
  images : list Image;
  variants : list Variant
}.

(** The state of the component: [selectedProduct] and [active]. *)
Record State : Type := {
  selectedProduct : option Product;
  active : bool
}.

Definition initial : State := {| selectedProduct := None; active := false |}.

Definition handleOpenModal (product : Product) (st : State) : State :=
  {| selectedProduct := Some product; active := true |}.

Definition handleCloseModal (st : State) : State :=
  {| selectedProduct := None; active := false |}.

(** What the user does on the page. *)
Inductive event : Type :=
| ViewDetails (product : Product)
| CloseModal.

Definition step (st : State) (e : event) : State :=
  match e with
  | ViewDetails product => handleOpenModal product st
  | CloseModal => handleCloseModal st
  end.

Definition run (events : list event) : State := fold_left step events initial.

(** The url of the "View in Admin" action. *)
Definition adminUrl (st : State) : string :=
  match selectedProduct st with
  | Some p => ("shopify:admin/products/" ++ lastSegment (id p))%string
  | None => ""
  end.

End Products.

(** ** The profile page of the storefront extension
       (src/app/routes/app.customer.jsx, [ProfilePage]) *)

Module Profile.

(** The customer of the GetProfile query, as far as the page computes
    with it. *)
Record Customer : Type := {
  firstName : option string;
  lastName : option string;
  email : option string
}.

(** How the fetch ends: it throws an error with a message, or the response
    body is parsed; [errors] is the JSON text of a present [json.errors],
    [customer] is [json.data?.customer]. *)
Inductive outcome : Type :=
| Threw (message : string)
| Responded (errors : option string) (customer : option Customer).

Record State : Type := {
  profile : option Customer;
  loading : bool;
  errorMsg : option string
}.

Definition initial : State :=
  {| profile := None; loading := true; errorMsg := None |}.

Definition setProfile (p : Customer) (st : State) : State :=
  {| profile := Some p; loading := loading st; errorMsg := errorMsg st |}.

Definition setErrorMsg (m : string) (st : State) : State :=
  {| profile := profile st; loading := loading st; errorMsg := Some m |}.

Definition setLoading (b : bool) (st : State) : State :=
  {| profile := profile st; loading := b; errorMsg := errorMsg st |}.

(** [fetchProfile]: the [try] block, the [catch] and the [finally]. *)
Definition fetchProfile (o : outcome) (st : State) : State :=
  let st1 :=
    match o with
    | Responded (Some errors) _ => setErrorMsg errors st
    | Responded None (Some customer) => setProfile customer st
    | Responded None None =>
        setErrorMsg "No customer data returned. Ensure you are logged in." st
    | Threw message => setErrorMsg message st
    end in
  setLoading false st1.

(** Which of its four returns the component takes. *)
Inductive view : Type :=
| LoadingBanner
| ErrorBanner (message : string)
| UnavailableBanner
| ProfileCards (customer : Customer).

Definition render (st : State) : view :=
  if loading st then LoadingBanner
  else match errorMsg st with
       | Some m =>
           if truthy m then ErrorBanner m
           else match profile st with
                | Some p => ProfileCards p
                | None => UnavailableBanner
                end
       | None =>
           match profile st with
           | Some p => ProfileCards p
           | None => UnavailableBanner
           end
       end.

End Profile.

(** ** A reference date format

    [toDateString] for a host whose time zone is UTC: weekday, month, day
    of the month on two digits, year. *)

Module ReferenceDateFormat.

(** The civil date (year, month, day) of a day count from 1970-01-01. *)
Definition civil_from_days (days : Z) : Z * Z * Z :=
  let z := days + 719468 in
  let era := z / 146097 in
  let doe := z - era * 146097 in
  let yoe := (doe - doe / 1460 + doe / 36524 - doe / 146096) / 365 in
  let y := yoe + era * 400 in
  let doy := doe - (365 * yoe + yoe / 4 - yoe / 100) in
  let mp := (5 * doy + 2) / 153 in
  let d := doy - (153 * mp + 2) / 5 + 1 in
  let m := if mp <? 10 then mp + 3 else mp - 9 in
  (if m <=? 2 then y + 1 else y, m, d).

Definition weekdays : list string :=
  ["Sun"; "Mon"; "Tue"; "Wed"; "Thu"; "Fri"; "Sat"].

Definition months : list string :=
  ["Jan"; "Feb"; "Mar"; "Apr"; "May"; "Jun"; "Jul"; "Aug"; "Sep"; "Oct";
   "Nov"; "Dec"].

Definition to_date_string (t : number) : string :=
  match t with
  | Fin q =>
      let days := Qfloor q / 86400000 in
      let '(y, m, d) := civil_from_days days in
      (nth (Z.to_nat ((days + 4) mod 7)) weekdays "" ++ " "
       ++ nth (Z.to_nat (m - 1)) months "" ++ " "
       ++ ReferenceHost.pad_left 2 (ReferenceHost.Z_to_string d) ++ " "
       ++ ReferenceHost.pad_left 4 (ReferenceHost.Z_to_string y))%string
  | _ => "Invalid Date"
  end.

#[export] Instance dateFormat : DateFormat := {|
  toDateString := to_date_string
|}.

End ReferenceDateFormat.

(** ** More sample records *)

Definition namedCustomer (ident first : string) (joined : string)
  : Customers.Customer :=
  {| Customers.id := ident;
     Customers.firstName := Some first; Customers.lastName := Some "Byron";
     Customers.email := None;
     Customers.defaultAddress := None;
     Customers.tags := Some ["vip"; "wholesale"];
     Customers.numberOfOrders := 12;
     Customers.lastOrder := None;
     Customers.createdAt := joined |}.

Definition twoCustomers : list Customers.Customer :=
  [namedCustomer "gid://shopify/Customer/8" "Zoe" "2024-02-01T08:00:00Z";
   namedCustomer "gid://shopify/Customer/9" "Ada" "2023-03-01T09:30:00Z"].

(** Two customer nodes created at the same instant. *)
Definition sameDayCustomers : list Customers.Customer :=
  [listedCustomer None; listedCustomer (Some "2024-05-01T00:00:00Z")].

Definition tagAndCountQuery : Customers.Query :=
  {| Customers.queryValue := ""; Customers.tagFilter := "vip";
     Customers.countryFilter := ""; Customers.itemsOrderCount := "2";
     Customers.lastOrderDateFilter := "";
     Customers.sortSelected := ["date asc"] |}.

Definition datedOrder (ident : string) (st : option string) (ts : string)
  (items : list string) : Orders.Order :=
  {| Orders.id := ident; Orders.name := Some "#1002";
     Orders.displayFulfillmentStatus := None;
     Orders.displayFinancialStatus := st;
     Orders.processedAt := ts;
     Orders.totalPriceSet :=
       Some {| Orders.shopMoney :=
                 Some {| Orders.amount := "19.90";
                         Orders.currencyCode := "EUR" |} |};
     Orders.customer := None;
     Orders.lineItems :=
       map (fun t => {| Orders.title := t; Orders.quantity := 1 |}) items;
     Orders.cancelReason := None |}.

Definition threeOrders : list Orders.Order :=
  [datedOrder "gid://shopify/Order/3" (Some "PAID") "2024-01-20T10:00:00Z" ["Mug"];
   datedOrder "gid://shopify/Order/1" None "2024-01-10T12:00:00Z" [];
   datedOrder "gid://shopify/Order/2" (Some "VOIDED") "2024-01-15T00:00:00Z" ["Cap"]].

Definition dateQuery (bound : string) (sort : list string) : Orders.Query :=
  {| Orders.queryValue := ""; Orders.statusFilter := [];
     Orders.dateFilter := bound; Orders.productFilter := "";
     Orders.sortSelected := sort |}.

Definition busyQuery : Orders.Query :=
  {| Orders.queryValue := ""; Orders.statusFilter := ["paid"; "voided"];
     Orders.dateFilter := "2024-01-05"; Orders.productFilter := "a";
     Orders.sortSelected := ["date asc"] |}.

Definition healthOrder (ts : string) (st : option string)
  : StoreHealth.Order :=
  {| StoreHealth.orderId := "gid://shopify/Order/5";
     StoreHealth.orderProcessedAt := ts;
     StoreHealth.orderDisplayFinancialStatus := st;
     StoreHealth.cancelledAt := None |}.

Definition recentOrders : list StoreHealth.Order :=
  [healthOrder "2023-12-30T00:00:00Z" (Some "PAID");
   healthOrder "2023-12-22T00:00:00Z" (Some "REFUNDED");
   healthOrder "2023-12-20T00:00:00Z" (Some "PAID");
   healthOrder "2023-11-01T00:00:00Z" (Some "PAID")].

Definition twiceRefunded : StoreHealth.Customer :=
  healthCustomer "gid://shopify/Customer/5" None "75.0"
                 (Some "2023-12-20T00:00:00Z")
                 [Some "REFUNDED"; Some "PARTIALLY_REFUNDED"; Some "PAID"].

(** Chips and a query for the runs of the controls. *)
Definition tagChip : CustomerControls.AppliedFilter :=
  {| CustomerControls.key := "tag"; CustomerControls.label := "Tag: vip";
     CustomerControls.onRemove := CustomerControls.setTagFilter "" |}.

Definition dateChip : OrderControls.AppliedFilter :=
  {| OrderControls.key := "date"; OrderControls.label := "After: 2024-01-05";
     OrderControls.onRemove := OrderControls.setDateFilter "" |}.

Definition totalSortQuery : Customers.Query :=
  {| Customers.queryValue := ""; Customers.tagFilter := "";
     Customers.countryFilter := ""; Customers.itemsOrderCount := "";
     Customers.lastOrderDateFilter := "";
     Customers.sortSelected := ["total asc"] |}.

(** ** The order of a table *)

(** Two projections that [<] compares on their own terms: two strings, or
    two numbers other than NaN and the infinities. *)
Definition uniform (v : sortval) (w : sortval) : Prop :=
  (exists s t, v = SVstring s /\ w = SVstring t)
  \/ (exists x y, v = SVnumber (Fin x) /\ w = SVnumber (Fin y)).

Definition ascending (d : option string) : bool :=
  match d with Some s => (s =? "asc")%string | None => false end.

(** Rows in the order of a direction: going down the table no key is
    followed by a smaller one (asc) or by a greater one (any other
    direction). *)
Definition inDirection `{Host} (d : option string) (v w : sortval) : Prop :=
  if ascending d then js_lt w v = false else js_lt v w = false.

(** * Numbers and comparators *)

Lemma Qlt_bool_iff (x y : Q) : Qlt_bool x y = true <-> (x < y)%Q.
Proof.
  unfold Qlt_bool. rewrite negb_true_iff.
  split; intro Hxy.
  - apply Qnot_le_lt. intro Hle.
    apply Qle_bool_iff in Hle. congruence.
  - destruct (Qle_bool y x) eqn:E; [|reflexivity].
    apply Qle_bool_iff in E. exfalso. exact (Qlt_not_le _ _ Hxy E).
Qed.

Lemma num_lt_asym (a b : number) : num_lt a b = true -> num_lt b a = false.
Proof.
  destruct a as [| | |x], b as [| | |y]; simpl; try congruence.
  intro Hxy. apply Qlt_bool_iff in Hxy.
  apply not_true_is_false. intro Hyx. apply Qlt_bool_iff in Hyx.
  exact (Qlt_irrefl _ (Qlt_trans _ _ _ Hxy Hyx)).
Qed.

Lemma num_same_not_lt (a b v : number) :
  num_same a v = true -> num_same b v = true -> num_lt a b = false.
Proof.
  destruct a as [| | |x], b as [| | |y], v as [| | |z]; simpl;
    try congruence.
  intros Hx Hy. apply Qeq_bool_iff in Hx. apply Qeq_bool_iff in Hy.
  apply not_true_is_false. intro Hlt. apply Qlt_bool_iff in Hlt.
  rewrite Hx, Hy in Hlt. exact (Qlt_irrefl _ Hlt).
Qed.

Lemma num_same_refl (a : number) : num_same a a = true.
Proof. destruct a; simpl; auto using Qeq_bool_refl. Qed.

Lemma sortval_same_refl (a : sortval) : sortval_same a a = true.
Proof. destruct a; simpl; auto using String.eqb_refl, num_same_refl. Qed.

Lemma string_ltb_asym (s t : string) :
  String.ltb s t = true -> String.ltb t s = false.
Proof.
  unfold String.ltb. rewrite (String.compare_antisym s t).
  destruct (String.compare t s); simpl; congruence.
Qed.

Lemma string_ltb_irrefl (s : string) : String.ltb s s = false.
Proof.
  destruct (String.ltb s s) eqn:E; [|reflexivity].
  pose proof (string_ltb_asym _ _ E). congruence.
Qed.

Section ComparatorFacts.
Context `{Host}.

Lemma js_lt_asym (a b : sortval) : js_lt a b = true -> js_lt b a = false.
Proof.
  unfold js_lt.
  destruct a, b; first [apply string_ltb_asym | apply num_lt_asym].
Qed.

Lemma sortval_same_not_lt (a b v : sortval) :
  sortval_same a v = true -> sortval_same b v = true -> js_lt a b = false.
Proof.
  destruct a as [| |s|x], b as [| |t|y], v as [| |u|z]; simpl;
    try congruence; try (intros _ _; reflexivity).
  - intros Hs Ht. apply String.eqb_eq in Hs. apply String.eqb_eq in Ht.
    subst. apply string_ltb_irrefl.
  - apply num_same_not_lt.
Qed.

Lemma three_way_same (d : option string) (a b v : sortval) :
  sortval_same a v = true -> sortval_same b v = true -> three_way d a b = 0.
Proof.
  intros Ha Hb. unfold three_way, js_gt.
  rewrite (sortval_same_not_lt _ _ _ Ha Hb), (sortval_same_not_lt _ _ _ Hb Ha).
  reflexivity.
Qed.

Lemma three_way_antisym (d : option string) (a b : sortval) :
  0 < three_way d a b -> three_way d b a <= 0.
Proof.
  unfold three_way, js_gt.
  destruct (js_lt a b) eqn:Eab.
  - rewrite (js_lt_asym _ _ Eab).
    destruct d as [d|]; [destruct (d =? "asc")%string|]; lia.
  - destruct (js_lt b a) eqn:Eba; [|lia].
    destruct d as [d|]; [destruct (d =? "asc")%string|]; lia.
Qed.

End ComparatorFacts.

(** * The sort: permutation, stability, fixed points *)

Section ArraySortFacts.
Context {A : Type} (compareFn : A -> A -> Z).

Lemma sort_insert_perm (x : A) (l : list A) :
  Permutation (sort_insert compareFn x l) (x :: l).
Proof.
  induction l as [|y l IH]; simpl.
  - apply Permutation_refl.
  - destruct (compareFn x y <=? 0).
    + apply Permutation_refl.
    + apply perm_trans with (y :: x :: l).
      * apply perm_skip. exact IH.
      * apply perm_swap.
Qed.

Lemma Array_sort_perm (l : list A) : Permutation (Array_sort compareFn l) l.
Proof.
  induction l as [|x l IH]; simpl.
  - apply perm_nil.
  - apply perm_trans with (x :: Array_sort compareFn l).
    + apply sort_insert_perm.
    + apply perm_skip. exact IH.
Qed.

(** A class of records that tie with one another keeps its order. *)
Lemma filter_sort_insert (P : A -> bool) (x : A) (l : list A) :
  (forall a b, P a = true -> P b = true -> compareFn a b <= 0) ->
  filter P (sort_insert compareFn x l) = filter P (x :: l).
Proof.
  intro Htie. induction l as [|y l IH]; simpl.
  - reflexivity.
  - destruct (compareFn x y <=? 0) eqn:E; simpl.
    + reflexivity.
    + rewrite IH. simpl.
      destruct (P x) eqn:Px, (P y) eqn:Py; try reflexivity.
      apply Z.leb_gt in E. specialize (Htie x y Px Py). lia.
Qed.

Lemma filter_Array_sort (P : A -> bool) (l : list A) :
  (forall a b, P a = true -> P b = true -> compareFn a b <= 0) ->
  filter P (Array_sort compareFn l) = filter P l.
Proof.
  intro Htie. induction l as [|x l IH]; simpl.
  - reflexivity.
  - rewrite (filter_sort_insert P x _ Htie). simpl. rewrite IH. reflexivity.
Qed.

Lemma ordered_tail (x : A) (l : list A) : ordered compareFn (x :: l) -> ordered compareFn l.
Proof.
  intro Ho. inversion Ho; subst; [constructor | assumption].
Qed.

Lemma sort_insert_ordered (x : A) (l : list A) :
  (forall a b, 0 < compareFn a b -> compareFn b a <= 0) ->
  ordered compareFn l -> ordered compareFn (sort_insert compareFn x l).
Proof.
  intros Hanti Ho. induction Ho as [|y|y z l Hyz Ho IH]; simpl.
  - constructor.
  - destruct (compareFn x y <=? 0) eqn:E.
    + constructor; [apply Z.leb_le; exact E | constructor].
    + constructor; [apply Hanti; apply Z.leb_gt in E; lia | constructor].
  - destruct (compareFn x y <=? 0) eqn:E.
    + constructor; [apply Z.leb_le; exact E|].
      constructor; assumption.
    + simpl in IH. destruct (compareFn x z <=? 0) eqn:E'.
      * constructor; [apply Hanti; apply Z.leb_gt in E; lia | exact IH].
      * constructor; assumption.
Qed.

Lemma Array_sort_ordered (l : list A) :
  (forall a b, 0 < compareFn a b -> compareFn b a <= 0) ->
  ordered compareFn (Array_sort compareFn l).
Proof.
  intro Hanti. induction l as [|x l IH]; simpl.
  - constructor.
  - apply sort_insert_ordered; assumption.
Qed.

(** The sort leaves an ordered array as it is. *)
Lemma Array_sort_fixed (l : list A) :
  ordered compareFn l -> Array_sort compareFn l = l.
Proof.
  intro Ho. induction Ho as [|x|x y l Hxy Ho IH]; simpl.
  - reflexivity.
  - reflexivity.
  - simpl in IH. rewrite IH. simpl.
    apply Z.leb_le in Hxy. rewrite Hxy. reflexivity.
Qed.

Lemma Array_sort_idempotent (l : list A) :
  (forall a b, 0 < compareFn a b -> compareFn b a <= 0) ->
  Array_sort compareFn (Array_sort compareFn l) = Array_sort compareFn l.
Proof.
  intro Hanti. apply Array_sort_fixed, Array_sort_ordered, Hanti.
Qed.

Lemma Array_sort_Forall (P : A -> Prop) (l : list A) :
  Forall P l -> Forall P (Array_sort compareFn l).
Proof.
  intro HP. rewrite Forall_forall in *. intros x Hx.
  apply HP. apply (Permutation_in _ (Array_sort_perm l)). exact Hx.
Qed.

End ArraySortFacts.

Lemma filter_all {A : Type} (p : A -> bool) (l : list A) :
  Forall (fun x => p x = true) l -> filter p l = l.
Proof.
  induction 1 as [|x l Hx _ IH]; simpl.
  - reflexivity.
  - rewrite Hx, IH. reflexivity.
Qed.

Lemma filter_Forall {A : Type} (p : A -> bool) (l : list A) :
  Forall (fun x => p x = true) (filter p l).
Proof.
  apply Forall_forall. intros x Hx. apply filter_In in Hx. tauto.
Qed.

Lemma precedes_filter {A : Type} (P : A -> bool) (a b : A) (l : list A) :
  P a = true -> P b = true -> precedes a b l -> precedes a b (filter P l).
Proof.
  intros Pa Pb (l1 & l2 & l3 & ->).
  exists (filter P l1), (filter P l2), (filter P l3).
  rewrite filter_app. simpl. rewrite Pa, filter_app. simpl. rewrite Pb.
  reflexivity.
Qed.

Lemma filter_split {A : Type} (P : A -> bool) (l : list A) :
  forall (x : A) (m1 m2 : list A),
    filter P l = m1 ++ x :: m2 ->
    exists l1 l2, l = l1 ++ x :: l2 /\ filter P l1 = m1 /\ filter P l2 = m2.
Proof.
  induction l as [|y l IH]; intros x m1 m2 Hf; simpl in Hf.
  - destruct m1; discriminate.
  - destruct (P y) eqn:Py.
    + destruct m1 as [|z m1]; simpl in Hf.
      * injection Hf as -> Hl. exists [], l. simpl. auto.
      * injection Hf as -> Hl.
        destruct (IH _ _ _ Hl) as (l1 & l2 & -> & H1 & H2).
        exists (z :: l1), l2. simpl. rewrite Py, H1. auto.
    + destruct (IH _ _ _ Hf) as (l1 & l2 & -> & H1 & H2).
      exists (y :: l1), l2. simpl. rewrite Py. auto.
Qed.

Lemma precedes_of_filter {A : Type} (P : A -> bool) (a b : A) (l : list A) :
  precedes a b (filter P l) -> precedes a b l.
Proof.
  intros (m1 & m2 & m3 & Hf).
  destruct (filter_split P l _ _ _ Hf) as (l1 & r & -> & _ & Hr).
  destruct (filter_split P r _ _ _ Hr) as (l2 & l3 & -> & _ & _).
  exists l1, l2, l3. reflexivity.
Qed.

(** * The visible rows: stability and idempotence *)

Section VisibleRows.
Context `{Host}.

Lemma compareOrders_antisym (k : string) (d : option string) (a b : Orders.Order) :
  0 < Orders.compareOrders k d a b -> Orders.compareOrders k d b a <= 0.
Proof. apply three_way_antisym. Qed.

Lemma compareCustomers_antisym (k : string) (d : option string)
  (a b : Customers.Customer) :
  0 < Customers.compareCustomers k d a b -> Customers.compareCustomers k d b a <= 0.
Proof. apply three_way_antisym. Qed.

(** Rows with one and the same key keep their order.  The hypothesis on
    the keys is the one under which [Array_sort] is the sort of the host;
    the insertion itself keeps tied rows in place on every batch. *)
Lemma orders_class_kept (orders : list Orders.Order) (q : Orders.Query) (v : sortval) :
  (forall a b, In a orders -> In b orders ->
               uniform (orderProjection q a) (orderProjection q b)) ->
  filter (fun o => sortval_same (orderProjection q o) v)
         (Orders.filteredOrders orders q)
  = filter (fun o => sortval_same (orderProjection q o) v)
           (filter (Orders.orderMatches q) orders).
Proof.
  intros _. unfold Orders.filteredOrders, orderProjection.
  destruct (sort_selection (Orders.sortSelected q)) as [[k d]|]; [|reflexivity].
  apply filter_Array_sort. intros a b Ha Hb.
  unfold Orders.compareOrders. rewrite (three_way_same d _ _ v Ha Hb). lia.
Qed.

Lemma customers_class_kept (customers : list Customers.Customer)
  (q : Customers.Query) (v : sortval) :
  (forall a b, In a customers -> In b customers ->
               uniform (customerProjection q a) (customerProjection q b)) ->
  filter (fun c => sortval_same (customerProjection q c) v)
         (Customers.filteredCustomers customers q)
  = filter (fun c => sortval_same (customerProjection q c) v)
           (filter (Customers.customerMatches q) customers).
Proof.
  intros _. unfold Customers.filteredCustomers, customerProjection.
  destruct (sort_selection (Customers.sortSelected q)) as [[k d]|]; [|reflexivity].
  apply filter_Array_sort. intros a b Ha Hb.
  unfold Customers.compareCustomers. rewrite (three_way_same d _ _ v Ha Hb). lia.
Qed.

(** C9.  Sorting is stable for orders and for customers on a batch whose
    keys under the selected sort option are all strings or all proper
    numbers: for every value [v] of the sort projection, the rows whose
    projection is [v] appear in the visible rows as the same sequence, in
    the same order, as in the filtered sequence before the sort. *)
Theorem sort_keeps_order_of_ties :
  forall (orders : list Orders.Order) (oq : Orders.Query)
         (customers : list Customers.Customer) (cq : Customers.Query)
         (v : sortval),
    ((forall a b, In a orders -> In b orders ->
                  uniform (orderProjection oq a) (orderProjection oq b)) ->
     filter (fun o => sortval_same (orderProjection oq o) v)
            (Orders.visibleRows (Orders.apply orders oq))
     = filter (fun o => sortval_same (orderProjection oq o) v)
              (filter (Orders.orderMatches oq) orders))
    /\ ((forall a b, In a customers -> In b customers ->
                     uniform (customerProjection cq a) (customerProjection cq b)) ->
        filter (fun c => sortval_same (customerProjection cq c) v)
               (Customers.visibleRows (Customers.apply customers cq))
        = filter (fun c => sortval_same (customerProjection cq c) v)
                 (filter (Customers.customerMatches cq) customers)).
Proof.
  intros orders oq customers cq v. split; intro Huni.
  - apply orders_class_kept. exact Huni.
  - apply customers_class_kept. exact Huni.
Qed.

(** The same fact for two given rows: an order that comes before another
    one with the same projection in the filtered sequence still comes before
    it in the visible rows. *)
Lemma tied_orders_keep_position (orders : list Orders.Order) (q : Orders.Query)
  (a b : Orders.Order) :
  (forall x y, In x orders -> In y orders ->
               uniform (orderProjection q x) (orderProjection q y)) ->
  sortval_same (orderProjection q a) (orderProjection q b) = true ->
  precedes a b (filter (Orders.orderMatches q) orders) ->
  precedes a b (Orders.filteredOrders orders q).
Proof.
  intros Huni Ha Hp. pose proof (sortval_same_refl (orderProjection q b)) as Hb.
  apply (precedes_of_filter
           (fun o => sortval_same (orderProjection q o) (orderProjection q b))).
  rewrite (orders_class_kept _ _ _ Huni).
  apply precedes_filter; assumption.
Qed.

Lemma tied_customers_keep_position (customers : list Customers.Customer)
  (q : Customers.Query) (a b : Customers.Customer) :
  (forall x y, In x customers -> In y customers ->
               uniform (customerProjection q x) (customerProjection q y)) ->
  sortval_same (customerProjection q a) (customerProjection q b) = true ->
  precedes a b (filter (Customers.customerMatches q) customers) ->
  precedes a b (Customers.filteredCustomers customers q).
Proof.
  intros Huni Ha Hp. pose proof (sortval_same_refl (customerProjection q b)) as Hb.
  apply (precedes_of_filter
           (fun c => sortval_same (customerProjection q c) (customerProjection q b))).
  rewrite (customers_class_kept _ _ _ Huni).
  apply precedes_filter; assumption.
Qed.

Lemma filteredOrders_idempotent (orders : list Orders.Order) (q : Orders.Query) :
  Orders.filteredOrders (Orders.filteredOrders orders q) q
  = Orders.filteredOrders orders q.
Proof.
  unfold Orders.filteredOrders.
  destruct (sort_selection (Orders.sortSelected q)) as [[k d]|].
  - rewrite (filter_all (Orders.orderMatches q)
               (Array_sort _ (filter (Orders.orderMatches q) orders))).
    + apply Array_sort_idempotent. intros a b. apply compareOrders_antisym.
    + apply Array_sort_Forall, filter_Forall.
  - apply filter_all, filter_Forall.
Qed.

Lemma filteredCustomers_idempotent (customers : list Customers.Customer)
  (q : Customers.Query) :
  Customers.filteredCustomers (Customers.filteredCustomers customers q) q
  = Customers.filteredCustomers customers q.
Proof.
  unfold Customers.filteredCustomers.
  destruct (sort_selection (Customers.sortSelected q)) as [[k d]|].
  - rewrite (filter_all (Customers.customerMatches q)
               (Array_sort _ (filter (Customers.customerMatches q) customers))).
    + apply Array_sort_idempotent. intros a b. apply compareCustomers_antisym.
    + apply Array_sort_Forall, filter_Forall.
  - apply filter_all, filter_Forall.
Qed.

(** C10.  Filtering and sorting are idempotent: applied to its own visible
    rows under the same query, the engine returns these rows unchanged, for
    orders and for customers. *)
Theorem apply_idempotent :
  forall (orders : list Orders.Order) (oq : Orders.Query)
         (customers : list Customers.Customer) (cq : Customers.Query),
    Orders.visibleRows
      (Orders.apply (Orders.visibleRows (Orders.apply orders oq)) oq)
    = Orders.visibleRows (Orders.apply orders oq)
    /\ Customers.visibleRows
         (Customers.apply (Customers.visibleRows (Customers.apply customers cq)) cq)
       = Customers.visibleRows (Customers.apply customers cq).
Proof.
  intros orders oq customers cq. simpl. split.
  - apply filteredOrders_idempotent.
  - apply filteredCustomers_idempotent.
Qed.

(** The identity filter law and the subset law of the visible rows. *)
Lemma filteredOrders_perm (orders : list Orders.Order) (q : Orders.Query) :
  Permutation (Orders.filteredOrders orders q)
              (filter (Orders.orderMatches q) orders).
Proof.
  unfold Orders.filteredOrders.
  destruct (sort_selection (Orders.sortSelected q)) as [[k d]|].
  - apply Array_sort_perm.
  - apply Permutation_refl.
Qed.

Lemma filteredCustomers_perm (customers : list Customers.Customer)
  (q : Customers.Query) :
  Permutation (Customers.filteredCustomers customers q)
              (filter (Customers.customerMatches q) customers).
Proof.
  unfold Customers.filteredCustomers.
  destruct (sort_selection (Customers.sortSelected q)) as [[k d]|].
  - apply Array_sort_perm.
  - apply Permutation_refl.
Qed.

Lemma filteredOrders_subset (orders : list Orders.Order) (q : Orders.Query)
  (o : Orders.Order) :
  In o (Orders.filteredOrders orders q) -> In o orders.
Proof.
  intro Hin. apply (Permutation_in _ (filteredOrders_perm orders q)) in Hin.
  apply filter_In in Hin. tauto.
Qed.

Lemma filteredCustomers_subset (customers : list Customers.Customer)
  (q : Customers.Query) (c : Customers.Customer) :
  In c (Customers.filteredCustomers customers q) -> In c customers.
Proof.
  intro Hin. apply (Permutation_in _ (filteredCustomers_perm customers q)) in Hin.
  apply filter_In in Hin. tauto.
Qed.

End VisibleRows.

(** * The store: what a render reads and writes *)

Section StoreFacts.
Context {A : Type}.

Lemma read_alloc_old (h : store A) (a : list A) (r : nat) :
  (r < List.length h)%nat -> read (snd (alloc h a)) r = read h r.
Proof. intro Hr. unfold read, alloc. simpl. apply app_nth1. exact Hr. Qed.

Lemma read_alloc_new (h : store A) (a : list A) :
  read (snd (alloc h a)) (fst (alloc h a)) = a.
Proof. unfold read, alloc. simpl. apply nth_middle. Qed.

Lemma length_alloc (h : store A) (a : list A) :
  List.length (snd (alloc h a)) = S (List.length h).
Proof. unfold alloc. simpl. rewrite length_app. simpl. lia. Qed.

Lemma read_write_same (h : store A) (r : nat) (a : list A) :
  (r < List.length h)%nat -> read (write h r a) r = a.
Proof.
  revert r. induction h as [|x h IH]; intros r Hr; simpl in Hr.
  - lia.
  - destruct r as [|r]; simpl; [reflexivity|]. apply IH. lia.
Qed.

Lemma read_write_other (h : store A) (r r' : nat) (a : list A) :
  r <> r' -> read (write h r a) r' = read h r'.
Proof.
  revert r r'. induction h as [|x h IH]; intros r r' Hne; simpl.
  - reflexivity.
  - destruct r as [|r], r' as [|r']; simpl; try reflexivity; try congruence.
    apply IH. congruence.
Qed.

(** [xs.filter(p)] followed, or not, by a sort of the new array: the new
    array holds the filtered (and sorted) elements and no array that was
    there before has changed. *)
Lemma filter_then_sort (h : store A) (xs : nat) (p : A -> bool)
  (compareFn : option (A -> A -> Z)) :
  let filtered := fst (Array_filter_in h xs p) in
  let h1 := snd (Array_filter_in h xs p) in
  let h2 := match compareFn with
            | Some f => Array_sort_in h1 filtered f
            | None => h1
            end in
  read h2 filtered
  = match compareFn with
    | Some f => Array_sort f (filter p (read h xs))
    | None => filter p (read h xs)
    end
  /\ forall r, (r < List.length h)%nat -> read h2 r = read h r.
Proof.
  unfold Array_filter_in, Array_sort_in. cbv zeta.
  set (a := filter p (read h xs)).
  destruct compareFn as [f|].
  - split.
    + rewrite read_write_same.
      * rewrite read_alloc_new. reflexivity.
      * rewrite length_alloc. simpl. lia.
    + intros r Hr. rewrite read_write_other.
      * apply read_alloc_old. exact Hr.
      * simpl. lia.
  - split.
    + apply read_alloc_new.
    + intros r Hr. apply read_alloc_old. exact Hr.
Qed.

End StoreFacts.

Section Renders.
Context `{Host}.

(** A render of the order list: the new array holds [filteredOrders] of
    the batch, the statistics are those of the batch, and the arrays of the
    store it started from are as they were. *)
Lemma orders_render_spec (h : store Orders.Order) (orders : nat) (q : Orders.Query) :
  (orders < List.length h)%nat ->
  read (snd (Orders.render h orders q)) (fst (fst (Orders.render h orders q)))
  = Orders.filteredOrders (read h orders) q
  /\ snd (fst (Orders.render h orders q)) = Orders.stats (read h orders)
  /\ forall r, (r < List.length h)%nat ->
               read (snd (Orders.render h orders q)) r = read h r.
Proof.
  intro Hvalid. unfold Orders.render, Orders.filteredOrders.
  pose proof (filter_then_sort h orders (Orders.orderMatches q)
                (match sort_selection (Orders.sortSelected q) with
                 | Some (k, d) => Some (Orders.compareOrders k d)
                 | None => None
                 end)) as Hfs.
  cbv zeta in Hfs.
  destruct (Array_filter_in h orders (Orders.orderMatches q)) as [filtered h1].
  simpl fst in *. simpl snd in *.
  destruct (sort_selection (Orders.sortSelected q)) as [[k d]|];
    destruct Hfs as [Hrows Hframe]; simpl; rewrite (Hframe _ Hvalid); auto.
Qed.

Lemma customers_render_spec (h : store Customers.Customer) (customers : nat)
  (q : Customers.Query) :
  (customers < List.length h)%nat ->
  read (snd (Customers.render h customers q))
       (fst (fst (Customers.render h customers q)))
  = Customers.filteredCustomers (read h customers) q
  /\ snd (fst (Customers.render h customers q))
     = {| Customers.cardTotal := Z.of_nat (List.length (read h customers));
          Customers.cardAverage := Customers.averageOrders (read h customers) |}
  /\ forall r, (r < List.length h)%nat ->
               read (snd (Customers.render h customers q)) r = read h r.
Proof.
  intro Hvalid. unfold Customers.render, Customers.filteredCustomers.
  pose proof (filter_then_sort h customers (Customers.customerMatches q)
                (match sort_selection (Customers.sortSelected q) with
                 | Some (k, d) => Some (Customers.compareCustomers k d)
                 | None => None
                 end)) as Hfs.
  cbv zeta in Hfs.
  destruct (Array_filter_in h customers (Customers.customerMatches q))
    as [filtered h1].
  simpl fst in *. simpl snd in *.
  destruct (sort_selection (Customers.sortSelected q)) as [[k d]|];
    destruct Hfs as [Hrows Hframe]; simpl; rewrite (Hframe _ Hvalid); auto.
Qed.

End Renders.

(** * The order statistics *)

Lemma truthy_opt_present (o : option string) :
  o <> Some "" -> truthy_opt o = match o with Some _ => true | None => false end.
Proof.
  destruct o as [[|c s]|]; simpl; intro Hne; try reflexivity.
  exfalso. apply Hne. reflexivity.
Qed.

Lemma isCancelled_spec (o : Orders.Order) :
  Orders.cancelReason o <> Some "" ->
  Orders.isCancelled o = Spec.cancelledOrRefunded o.
Proof.
  intro Hne. unfold Orders.isCancelled, Spec.cancelledOrRefunded, strict_eq.
  rewrite (truthy_opt_present _ Hne).
  destruct (Orders.displayFinancialStatus o) as [st|]; simpl.
  - destruct (st =? "VOIDED")%string, (st =? "REFUNDED")%string; reflexivity.
  - destruct (Orders.cancelReason o); reflexivity.
Qed.

Lemma count_ext_Forall {A : Type} (p p' : A -> bool) (l : list A) :
  Forall (fun x => p x = p' x) l -> count p l = count p' l.
Proof.
  intro Hall. unfold count. f_equal. f_equal.
  induction Hall as [|x l Hx _ IH]; simpl.
  - reflexivity.
  - rewrite Hx, IH. reflexivity.
Qed.

Lemma count_nonneg {A : Type} (p : A -> bool) (l : list A) : 0 <= count p l.
Proof. unfold count. lia. Qed.

Lemma highRisk_of_counts (c t : Z) :
  0 < t ->
  num_gt (num_div (num_of_Z c) (num_of_Z t)) (Fin (1 # 10)) = true
  <-> (1 # 10 < inject_Z c / inject_Z t)%Q.
Proof.
  intro Ht. unfold num_gt, num_div, num_of_Z, Qsign. simpl Qnum.
  destruct (Z.compare_spec t 0) as [E|E|E].
  - exfalso. lia.
  - exfalso. lia.
  - simpl. apply Qlt_bool_iff.
Qed.

(** C4.  The statistics of an order batch whose cancellation reasons are
    enumeration values: [total] is the number of orders, [cancelled] the
    number of orders that are REFUNDED or VOIDED or carry a cancellation
    reason, [pending] the number of PENDING orders, and [highRisk] says that
    cancelled / total exceeds 0.10; on the empty batch [highRisk] is false
    and nothing is raised. *)
Theorem stats_of_batch :
  forall orders : list Orders.Order,
    reasonsAreEnumValues orders ->
    Orders.total (Orders.stats orders) = Z.of_nat (List.length orders)
    /\ Orders.cancelled (Orders.stats orders)
       = count Spec.cancelledOrRefunded orders
    /\ Orders.pending (Orders.stats orders) = count Spec.pendingOrder orders
    /\ (orders = [] -> Orders.highRisk (Orders.stats orders) = false)
    /\ (orders <> [] ->
        (Orders.highRisk (Orders.stats orders) = true
         <-> (1 # 10 < inject_Z (count Spec.cancelledOrRefunded orders)
                       / inject_Z (Z.of_nat (List.length orders)))%Q)).
Proof.
  intros orders Hwf.
  assert (Hc : count Orders.isCancelled orders
               = count Spec.cancelledOrRefunded orders).
  { apply count_ext_Forall. unfold reasonsAreEnumValues in Hwf.
    rewrite Forall_forall in *. intros o Ho.
    apply isCancelled_spec, Hwf, Ho. }
  unfold Orders.stats. cbn [Orders.total Orders.cancelled Orders.pending Orders.highRisk].
  repeat split.
  - exact Hc.
  - intros ->. reflexivity.
  - rewrite Hc. apply highRisk_of_counts.
    destruct orders; [congruence | simpl; lia].
  - rewrite Hc. apply highRisk_of_counts.
    destruct orders; [congruence | simpl; lia].
Qed.

Lemma tenOrders_enum : reasonsAreEnumValues tenOrders.
Proof. repeat constructor; discriminate. Qed.

Lemma stats_of_batch_witness :
  reasonsAreEnumValues tenOrders
  /\ Orders.cancelled (Orders.stats tenOrders) = 2
  /\ Orders.highRisk (Orders.stats tenOrders) = true.
Proof.
  split; [exact tenOrders_enum|].
  destruct (stats_of_batch tenOrders tenOrders_enum) as (_ & Hc & _ & _ & Hr).
  split.
  - rewrite Hc. reflexivity.
  - apply Hr; [discriminate | reflexivity].
Defined.

(** * The metrics and the query *)

(** C3.  For a fixed batch the aggregate metrics do not depend on the
    query: under any two queries a render of the order list yields the same
    statistics (total, cancelled, pending, highRisk), those of the
    unfiltered batch, and a render of the customer list yields the same
    batch cards (customer total, average orders), those of the unfiltered
    batch. *)
Theorem metrics_ignore_query :
  forall `{Host} (h : store Orders.Order) (orders : nat)
         (oq1 oq2 : Orders.Query)
         (ch : store Customers.Customer) (customers : nat)
         (cq1 cq2 : Customers.Query),
    (orders < List.length h)%nat ->
    (customers < List.length ch)%nat ->
    (snd (fst (Orders.render h orders oq1))
     = snd (fst (Orders.render h orders oq2))
     /\ snd (fst (Orders.render h orders oq1))
        = Orders.metrics (Orders.apply (read h orders) oq2))
    /\ (snd (fst (Customers.render ch customers cq1))
        = snd (fst (Customers.render ch customers cq2))
        /\ Customers.cardAverage (snd (fst (Customers.render ch customers cq1)))
           = Customers.average (Customers.apply (read ch customers) cq2)).
Proof.
  intros H h orders oq1 oq2 ch customers cq1 cq2 Ho Hc.
  destruct (orders_render_spec h orders oq1 Ho) as (_ & Hs1 & _).
  destruct (orders_render_spec h orders oq2 Ho) as (_ & Hs2 & _).
  destruct (customers_render_spec ch customers cq1 Hc) as (_ & Hc1 & _).
  destruct (customers_render_spec ch customers cq2 Hc) as (_ & Hc2 & _).
  rewrite Hs1, Hs2, Hc1, Hc2. simpl. auto.
Qed.

(** * The customer filters *)

Section CustomerFilters.
Context `{Host}.

Lemma num_lt_of_Z (a b : Z) : num_lt (num_of_Z a) (num_of_Z b) = true <-> a < b.
Proof.
  unfold num_of_Z. simpl. rewrite Qlt_bool_iff, <- Zlt_Qlt. reflexivity.
Qed.

Lemma num_gt_Fin (x y : Q) : num_gt (Fin x) (Fin y) = false <-> (x <= y)%Q.
Proof.
  unfold num_gt. simpl. unfold Qlt_bool. rewrite negb_false_iff.
  apply Qle_bool_iff.
Qed.

(** A guard [if g then false else ...] that stands on both sides of an
    equivalence between two runs of the callback: when it fires both
    sides are false. *)
Ltac skip_guard g :=
  destruct g eqn:?; [split; [discriminate | intros [? _]; discriminate]|].

Ltac skip_guards :=
  repeat match goal with
         | |- context [if ?g then false else _] =>
             lazymatch g with
             | num_gt _ _ => fail
             | num_lt _ _ => fail
             | _ => skip_guard g
             end
         end.

Lemma parseInt_number_truthy (s : string) (k : Z) :
  parseInt s = num_of_Z k -> truthy s = true.
Proof.
  destruct s; [discriminate | reflexivity].
Qed.

(** What [parseInt] reads: the digits at the front; from the first
    character that is no digit on, the input is not read. *)
Lemma leading_digits_front (ds : string) (c : ascii) (r : string)
  (acc : option Z) :
  all_digits ds = true -> digit_of c = None ->
  leading_digits acc (ds ++ String c r) = leading_digits acc ds.
Proof.
  revert acc. induction ds as [|d ds IH]; intros acc Hds Hc; simpl.
  - rewrite Hc. reflexivity.
  - simpl in Hds. destruct (digit_of d); [|discriminate].
    apply IH; assumption.
Qed.

Lemma parseInt_reads_the_front (d : ascii) (ds : string) (c : ascii)
  (r : string) :
  all_digits (String d ds) = true -> digit_of c = None ->
  parseInt (String d ds ++ String c r) = parseInt (String d ds).
Proof.
  intros Hds Hc.
  assert (Hrest : all_digits ds = true).
  { simpl in Hds. destruct (digit_of d); [exact Hds | discriminate]. }
  assert (Hd : exists n, digit_of d = Some n).
  { simpl in Hds. destruct (digit_of d) as [n|]; [exists n; reflexivity | discriminate]. }
  clear Hds. destruct Hd as [n Hn].
  destruct d as [[] [] [] [] [] [] [] []];
    try (vm_compute in Hn; discriminate Hn);
    unfold parseInt; cbn [skip_spaces append];
    match goal with
    | |- context [is_space ?a] =>
        change (is_space a) with false; cbv iota
    end;
    cbn [leading_digits];
    match goal with
    | |- context [digit_of ?a] =>
        let v := eval vm_compute in (digit_of a) in
        change (digit_of a) with v; cbv iota
    end;
    rewrite (leading_digits_front _ _ _ _ Hrest Hc); reflexivity.
Qed.


(** C7.  The last-order-before filter, when active with a valid date: a
    customer passes iff it passes the other filters and either has no last
    order or has a last-order timestamp not after the filter date. *)
Theorem last_order_before_filter :
  forall (q : Customers.Query) (c : Customers.Customer) (f : Q),
    Customers.lastOrderDateFilter q <> "" ->
    Date_parse (Customers.lastOrderDateFilter q) = Fin f ->
    lastOrderIsTimestamp c ->
    (Customers.customerMatches q c = true
     <-> Customers.customerMatches (withoutLastOrderDate q) c = true
         /\ (Customers.lastOrder c = None
             \/ exists lo t,
                 Customers.lastOrder c = Some lo
                 /\ Date_parse (Customers.processedAt lo) = Fin t
                 /\ (t <= f)%Q)).
Proof.
  intros q c f Hactive Hf Hts.
  unfold Customers.customerMatches, withoutLastOrderDate.
  cbn [Customers.queryValue Customers.tagFilter Customers.countryFilter
       Customers.itemsOrderCount Customers.lastOrderDateFilter truthy].
  skip_guards.
  assert (Ht : truthy (Customers.lastOrderDateFilter q) = true).
  { destruct (Customers.lastOrderDateFilter q); [congruence | reflexivity]. }
  rewrite Ht, Hf.
  unfold Customers.lastOrderProcessedAt.
  destruct (Customers.lastOrder c) as [lo|] eqn:Elo.
  - destruct (Hts lo Elo) as (Hne & t & Hparse).
    assert (Hp : truthy (Customers.processedAt lo) = true).
    { destruct (Customers.processedAt lo); [congruence | reflexivity]. }
    cbn [truthy_opt or_empty negb]. rewrite Hp, Hparse. cbn [negb].
    destruct (num_gt (Fin t) (Fin f)) eqn:E.
    + split; [discriminate|]. intros [_ [Hnone | (lo' & t' & Hlo & Hp' & Hle)]].
      * discriminate.
      * injection Hlo as <-. rewrite Hparse in Hp'. injection Hp' as <-.
        apply num_gt_Fin in Hle. congruence.
    + split; [|reflexivity]. intros _. split; [reflexivity|].
      right. exists lo, t. repeat split; [exact Hparse|].
      apply num_gt_Fin. exact E.
  - cbn [truthy_opt negb]. split; [|reflexivity]. intros _. split; [reflexivity|].
    left. reflexivity.
Qed.

End CustomerFilters.

(** * The store-health segments *)

Section StoreHealthFacts.
Context `{Host}.

(** Every customer is counted as having no email, whatever the response
    holds in [defaultEmailAddress]. *)
Lemma noEmailCount_is_batch_size (customers : list StoreHealth.Customer) :
  StoreHealth.noEmailCount customers = Z.of_nat (List.length customers).
Proof.
  unfold StoreHealth.noEmailCount, count. f_equal. f_equal.
  induction customers as [|c l IH]; simpl; [reflexivity | f_equal; exact IH].
Qed.

Lemma totalSpentSum_from_zero (customers : list StoreHealth.Customer) :
  StoreHealth.totalSpentSum customers = Fin 0.
Proof.
  unfold StoreHealth.totalSpentSum.
  induction customers as [|c l IH]; simpl; [reflexivity | exact IH].
Qed.

Lemma avgSpent_numerator (customers : list StoreHealth.Customer) :
  exists d : positive, StoreHealth.avgSpent customers = Fin (0 # d).
Proof.
  unfold StoreHealth.avgSpent. rewrite totalSpentSum_from_zero.
  set (n := if Z.of_nat (List.length customers) =? 0 then 1
            else Z.of_nat (List.length customers)).
  assert (Hn : 0 < n).
  { unfold n. destruct (Z.eqb_spec (Z.of_nat (List.length customers)) 0); lia. }
  destruct n as [|p|p]; try lia.
  exists p. reflexivity.
Qed.

(** No customer is ever listed as at-risk high value: the spend read by the
    code is 0 for every customer, and so is the average. *)
Lemma atRiskCustomers_nil (now : Z) (customers : list StoreHealth.Customer) :
  StoreHealth.atRiskCustomers now customers = [].
Proof.
  unfold StoreHealth.atRiskCustomers.
  destruct (avgSpent_numerator customers) as [d ->].
  induction customers as [|c l IH]; simpl; [reflexivity|].
  destruct (StoreHealth.lastOrder c); exact IH.
Qed.

(** The row of a refund-heavy customer is built iff each of its recent
    orders has a financial status. *)
Lemma countM_statuses_present (l : list StoreHealth.RecentOrder) :
  Forall (fun o => StoreHealth.displayFinancialStatus o <> None) l ->
  exists n, StoreHealth.countM StoreHealth.statusIncludesRefunded l = Ok n.
Proof.
  induction 1 as [|o l Ho _ [n IH]]; simpl.
  - exists 0. reflexivity.
  - unfold StoreHealth.statusIncludesRefunded at 1.
    destruct (StoreHealth.displayFinancialStatus o) as [st|]; [|congruence].
    simpl. rewrite IH. simpl. eexists. reflexivity.
Qed.

Lemma countM_status_absent (l : list StoreHealth.RecentOrder) :
  Exists (fun o => StoreHealth.displayFinancialStatus o = None) l ->
  exists m, StoreHealth.countM StoreHealth.statusIncludesRefunded l = TypeError m.
Proof.
  induction 1 as [o l Ho|o l _ [m IH]]; simpl.
  - unfold StoreHealth.statusIncludesRefunded at 1. rewrite Ho.
    simpl. eexists. reflexivity.
  - unfold StoreHealth.statusIncludesRefunded at 1.
    destruct (StoreHealth.displayFinancialStatus o) as [st|]; simpl.
    + rewrite IH. simpl. eexists. reflexivity.
    + eexists. reflexivity.
Qed.

Lemma mapM_total {A B : Type} (f : A -> result B) (l : list A) :
  Forall (fun x => exists y, f x = Ok y) l -> exists ys, mapM f l = Ok ys.
Proof.
  induction 1 as [|x l [y Hy] _ [ys IH]]; simpl.
  - eexists. reflexivity.
  - rewrite Hy. simpl. rewrite IH. simpl. eexists. reflexivity.
Qed.

(** The loader returns normally on a batch whose recent orders all have a
    financial status. *)
Lemma loader_returns (now : Z) (customers : list StoreHealth.Customer)
  (orders : list StoreHealth.Order) :
  Forall (fun c => Forall (fun o => StoreHealth.displayFinancialStatus o <> None)
                          (StoreHealth.orders c)) customers ->
  exists d, StoreHealth.loader now customers orders = Ok d.
Proof.
  intro Hall. unfold StoreHealth.loader.
  destruct (mapM_total StoreHealth.refundHeavyRow
              (StoreHealth.refundHeavyCustomers customers)) as [rows Hrows].
  { apply Forall_forall. intros c Hc.
    unfold StoreHealth.refundHeavyCustomers in Hc. apply filter_In in Hc.
    destruct Hc as [Hc _]. rewrite Forall_forall in Hall.
    destruct (countM_statuses_present _ (Hall c Hc)) as [n Hn].
    unfold StoreHealth.refundHeavyRow. rewrite Hn. simpl. eexists. reflexivity. }
  rewrite Hrows, atRiskCustomers_nil. simpl. eexists. reflexivity.
Qed.

End StoreHealthFacts.

(** * Invocations *)

(** C6, as amended.  Two invocations on identical inputs produce identical
    visible rows and order and customer-list metrics whatever the worlds
    they run in, and leave every array of the store they started from as it
    was; the store-health metrics and lists are identical when, in
    addition, the two invocations read the same clock. *)
Theorem engine_determined_by_inputs_and_clock :
  forall `{Host} (w1 w2 : World)
         (h : store Orders.Order) (orders : nat) (oq : Orders.Query)
         (ch : store Customers.Customer) (customers : nat)
         (cq : Customers.Query)
         (hcustomers : list StoreHealth.Customer)
         (horders : list StoreHealth.Order),
    (orders < List.length h)%nat ->
    (customers < List.length ch)%nat ->
    runOrders w1 h orders oq = runOrders w2 h orders oq
    /\ runCustomers w1 ch customers cq = runCustomers w2 ch customers cq
    /\ (forall r, (r < List.length h)%nat ->
                  read (snd (runOrders w1 h orders oq)) r = read h r)
    /\ (forall r, (r < List.length ch)%nat ->
                  read (snd (runCustomers w1 ch customers cq)) r = read ch r)
    /\ (clock w1 = clock w2 ->
        runStoreHealth w1 hcustomers horders
        = runStoreHealth w2 hcustomers horders).
Proof.
  intros H w1 w2 h orders oq ch customers cq hcustomers horders Ho Hc.
  split; [reflexivity|]. split; [reflexivity|].
  split; [apply (orders_render_spec h orders oq Ho)|].
  split; [apply (customers_render_spec ch customers cq Hc)|].
  unfold runStoreHealth. intros ->. reflexivity.
Qed.

(** * Runs on the reference host *)

Section ReferenceRuns.
Import ReferenceHost.

Lemma engine_determined_by_inputs_and_clock_witness :
  (0 < List.length [tenOrders])%nat
  /\ (0 < List.length [[listedCustomer None]])%nat
  /\ clock {| clock := newYear2024 |} = clock {| clock := 1704067200000 |}
  /\ read (snd (runOrders {| clock := newYear2024 |} [tenOrders] 0 statusQuery)) 0
     = tenOrders
  /\ runStoreHealth {| clock := newYear2024 |} [decemberBuyer] []
     = runStoreHealth {| clock := 1704067200000 |} [decemberBuyer] [].
Proof.
  assert (Ho : (0 < List.length [tenOrders])%nat) by (simpl; lia).
  assert (Hc : (0 < List.length [[listedCustomer None]])%nat) by (simpl; lia).
  destruct (engine_determined_by_inputs_and_clock
              {| clock := newYear2024 |} {| clock := 1704067200000 |}
              [tenOrders] 0%nat statusQuery
              [[listedCustomer None]] 0%nat (countQuery "")
              [decemberBuyer] [] Ho Hc)
    as (_ & _ & Hframe & _ & Hclock).
  split; [exact Ho|]. split; [exact Hc|]. split; [reflexivity|].
  split; [exact (Hframe 0%nat Ho) | exact (Hclock eq_refl)].
Defined.

Lemma metrics_ignore_query_witness :
  (0 < List.length [tenOrders])%nat
  /\ (0 < List.length [[listedCustomer None]])%nat
  /\ snd (fst (Orders.render [tenOrders] 0 statusQuery))
     = snd (fst (Orders.render [tenOrders] 0 noOrderQuery))
  /\ snd (fst (Customers.render [[listedCustomer None]] 0 (countQuery "5")))
     = snd (fst (Customers.render [[listedCustomer None]] 0 (countQuery ""))).
Proof.
  assert (Ho : (0 < List.length [tenOrders])%nat) by (simpl; lia).
  assert (Hc : (0 < List.length [[listedCustomer None]])%nat) by (simpl; lia).
  destruct (metrics_ignore_query [tenOrders] 0%nat statusQuery noOrderQuery
              [[listedCustomer None]] 0%nat (countQuery "5") (countQuery "")
              Ho Hc) as ((Hs & _) & (Hcards & _)).
  split; [exact Ho|]. split; [exact Hc|]. split; [exact Hs | exact Hcards].
Defined.

(** C6, as stated, fails: the same batch gives different store-health
    metrics to two invocations that read different clocks (the customer is
    active on 2024-01-01 and inactive for 90 days on 2024-06-01). *)
Lemma same_inputs_different_metrics :
  runStoreHealth {| clock := newYear2024 |} [decemberBuyer] []
  <> runStoreHealth {| clock := june2024 |} [decemberBuyer] [].
Proof.
  vm_compute. discriminate.
Qed.

(** C1.  On the batch of a high spender with a year-old last order and a
    customer who never ordered, the specification lists the high spender as
    at-risk high value, and the loader lists nobody. *)
Theorem at_risk_list_drops_high_spender :
  filter (Spec.atRiskHighValue newYear2024 [bigSpender; newcomer])
         [bigSpender; newcomer] = [bigSpender]
  /\ StoreHealth.atRiskCustomers newYear2024 [bigSpender; newcomer] = []
  /\ exists d, StoreHealth.loader newYear2024 [bigSpender; newcomer] [] = Ok d
               /\ StoreHealth.atRiskHighValue (StoreHealth.lists d) = [].
Proof.
  split; [vm_compute; reflexivity|].
  split; [vm_compute; reflexivity|].
  eexists. split; vm_compute; reflexivity.
Qed.

(** C2.  On the same batch both customers have an email address, and the
    loader reports two customers without email. *)
Theorem no_email_count_ignores_addresses :
  count Spec.emailMissing [bigSpender; newcomer] = 0
  /\ exists d, StoreHealth.loader newYear2024 [bigSpender; newcomer] [] = Ok d
               /\ StoreHealth.customersNoEmail (StoreHealth.metrics d) = 2.
Proof.
  split; [reflexivity|].
  eexists. split; vm_compute; reflexivity.
Qed.

(** C5.  A customer with two refunded recent orders and a recent order
    without a financial status: building the refund-heavy list raises. *)
Theorem loader_raises_on_absent_status :
  StoreHealth.loader newYear2024 [refunder] []
  = TypeError "Cannot read properties of null (reading 'includes')".
Proof.
  vm_compute. reflexivity.
Qed.



(** The last-order-before filter "2024-06-01" on a customer whose last
    order is of 2024-05-01. *)
Lemma last_order_before_filter_witness :
  Customers.lastOrderDateFilter (lastOrderQuery "2024-06-01") <> ""
  /\ Date_parse (Customers.lastOrderDateFilter (lastOrderQuery "2024-06-01"))
     = Fin (inject_Z 1717200000000)
  /\ lastOrderIsTimestamp (listedCustomer (Some "2024-05-01T00:00:00Z"))
  /\ Customers.customerMatches (lastOrderQuery "2024-06-01")
       (listedCustomer (Some "2024-05-01T00:00:00Z")) = true.
Proof.
  assert (Hact : Customers.lastOrderDateFilter (lastOrderQuery "2024-06-01") <> "")
    by discriminate.
  assert (Hf : Date_parse (Customers.lastOrderDateFilter (lastOrderQuery "2024-06-01"))
               = Fin (inject_Z 1717200000000))
    by (vm_compute; reflexivity).
  assert (Hts : lastOrderIsTimestamp (listedCustomer (Some "2024-05-01T00:00:00Z"))).
  { intros lo Hlo. injection Hlo as <-. split; [discriminate|].
    exists (inject_Z 1714521600000). vm_compute. reflexivity. }
  split; [exact Hact|]. split; [exact Hf|]. split; [exact Hts|].
  apply (last_order_before_filter (lastOrderQuery "2024-06-01")
           (listedCustomer (Some "2024-05-01T00:00:00Z"))
           (inject_Z 1717200000000) Hact Hf Hts).
  split; [reflexivity|]. right.
  exists {| Customers.processedAt := "2024-05-01T00:00:00Z" |},
         (inject_Z 1714521600000).
  split; [reflexivity|]. split; [vm_compute; reflexivity|].
  rewrite <- Zle_Qle. lia.
Defined.

(** The scenarios of the filters on the reference host. *)
Example no_last_order_passes :
  Customers.customerMatches (lastOrderQuery "2024-06-01") (listedCustomer None)
  = true.
Proof. reflexivity. Qed.

Example later_last_order_fails :
  Customers.customerMatches (lastOrderQuery "2024-06-01")
    (listedCustomer (Some "2024-06-01T00:00:01Z")) = false.
Proof. vm_compute. reflexivity. Qed.

Example order_date_filter_scenario :
  map (fun bound =>
         Orders.orderMatches
           {| Orders.queryValue := ""; Orders.statusFilter := [];
              Orders.dateFilter := bound; Orders.productFilter := "";
              Orders.sortSelected := [] |}
           (plainOrder "PAID"))
      ["2024-01-05"; "2024-01-15"]
  = [true; false].
Proof. vm_compute. reflexivity. Qed.

Example voided_orders_by_name :
  map Orders.displayFinancialStatus
      (Orders.filteredOrders tenOrders statusQuery)
  = [Some "VOIDED"; Some "VOIDED"].
Proof. vm_compute. reflexivity. Qed.

End ReferenceRuns.

(** * Splitting and joining *)

Lemma has_char_app (c : ascii) (s t : string) :
  has_char c (s ++ t)%string = has_char c s || has_char c t.
Proof.
  induction s as [|a s IH]; simpl.
  - reflexivity.
  - rewrite IH. apply orb_assoc.
Qed.

Lemma split_on_not_nil (c : ascii) (s : string) : split_on c s <> [].
Proof.
  destruct s as [|a s]; simpl.
  - discriminate.
  - destruct (Ascii.eqb a c); [discriminate|].
    destruct (split_on c s); discriminate.
Qed.

Lemma split_on_free (c : ascii) (s : string) :
  has_char c s = false -> split_on c s = [s].
Proof.
  induction s as [|a s IH]; simpl; intro Hfree.
  - reflexivity.
  - apply orb_false_iff in Hfree. destruct Hfree as [Ha Hs].
    rewrite Ha, (IH Hs). reflexivity.
Qed.

Lemma split_on_app (c : ascii) (s rest : string) :
  has_char c s = false ->
  split_on c (s ++ String c rest)%string = s :: split_on c rest.
Proof.
  induction s as [|a s IH]; simpl; intro Hfree.
  - rewrite Ascii.eqb_refl. reflexivity.
  - apply orb_false_iff in Hfree. destruct Hfree as [Ha Hs].
    rewrite Ha, (IH Hs). reflexivity.
Qed.

Lemma split_on_parts (c : ascii) (s : string) :
  Forall (fun p => has_char c p = false) (split_on c s).
Proof.
  induction s as [|a s IH]; simpl.
  - repeat constructor.
  - destruct (Ascii.eqb a c) eqn:E.
    + constructor; [reflexivity | exact IH].
    + destruct (split_on c s) as [|p ps]; inversion IH; subst.
      * repeat constructor. simpl. rewrite E. reflexivity.
      * constructor; [simpl; rewrite E; assumption | assumption].
Qed.

(** Joining free parts and splitting again gives the parts back. *)
Lemma split_on_join (c : ascii) (parts : list string) :
  parts <> [] ->
  Forall (fun p => has_char c p = false) parts ->
  split_on c (join (String c "") parts) = parts.
Proof.
  intros Hne Hfree. induction Hfree as [|p ps Hp Hps IH]; [congruence|].
  destruct ps as [|p' ps'].
  - simpl. apply split_on_free. exact Hp.
  - change (join (String c "") (p :: p' :: ps'))
      with (p ++ String c (join (String c "") (p' :: ps')))%string.
    rewrite (split_on_app c p _ Hp). f_equal. apply IH. discriminate.
Qed.

Lemma has_char_join (c : ascii) (sep : string) (l : list string) :
  has_char c sep = false ->
  Forall (fun p => has_char c p = false) l ->
  has_char c (join sep l) = false.
Proof.
  intros Hsep Hl. induction Hl as [|p ps Hp Hps IH]; [reflexivity|].
  destruct ps as [|p' ps'].
  - exact Hp.
  - change (join sep (p :: p' :: ps'))
      with (p ++ sep ++ join sep (p' :: ps'))%string.
    rewrite !has_char_app, Hp, Hsep, IH. reflexivity.
Qed.

(** The last part of a split, and what stands in front of it. *)
Lemma split_on_last (c : ascii) (s : string) :
  exists init seg pre,
    split_on c s = init ++ [seg]
    /\ s = (pre ++ seg)%string
    /\ ((init = [] /\ pre = "") \/ (init <> [] /\ exists p, pre = (p ++ String c "")%string)).
Proof.
  induction s as [|a s (init & seg & pre & Hsplit & Hs & Hpre)]; simpl.
  - exists [], "", "". repeat split. left. split; reflexivity.
  - destruct (Ascii.eqb_spec a c) as [->|Hne].
    + exists ("" :: init), seg, (String c pre). rewrite Hsplit, Hs.
      repeat split. right. split; [discriminate|].
      destruct Hpre as [[_ ->] | [_ [p ->]]].
      * exists "". reflexivity.
      * exists (String c p). reflexivity.
    + rewrite Hsplit. destruct init as [|p init].
      * exists [], (String a seg), "". simpl.
        destruct Hpre as [[_ ->] | [Habs _]]; [|congruence].
        simpl in Hs. rewrite Hs. repeat split. left. split; reflexivity.
      * exists (String a p :: init), seg, (String a pre). simpl. rewrite Hs.
        repeat split. right. split; [discriminate|].
        destruct Hpre as [[Habs _] | [_ [p0 ->]]]; [discriminate|].
        exists (String a p0). reflexivity.
Qed.

(** X1.  The id segment of an admin link, [id.split('/').pop()], contains no
    slash, and the id is this segment, alone when the id has no slash and
    otherwise preceded by a prefix that ends with a slash. *)
Theorem last_segment_of_id :
  forall id : string,
    has_char "/" (lastSegment id) = false
    /\ exists pre,
        id = (pre ++ lastSegment id)%string
        /\ (pre = "" \/ exists p, pre = (p ++ "/")%string).
Proof.
  intro id. unfold lastSegment.
  destruct (split_on_last "/" id) as (init & seg & pre & Hsplit & Hid & Hpre).
  pose proof (split_on_parts "/" id) as Hparts.
  rewrite Hsplit in *. rewrite rev_app_distr. simpl.
  apply Forall_app in Hparts. destruct Hparts as [_ Hseg].
  inversion Hseg; subst. split; [assumption|].
  exists pre. split; [reflexivity|].
  destruct Hpre as [[_ ->] | [_ Hp]]; [left; reflexivity | right; exact Hp].
Qed.

(** * The export *)

Section CsvExport.
Context `{Host} `{DateFormat}.

Lemma quoted_free (item : string) :
  has_char newline item = false ->
  has_char newline (CustomerControls.quoted item) = false.
Proof.
  intro Hfree. unfold CustomerControls.quoted. simpl.
  rewrite has_char_app, Hfree. reflexivity.
Qed.

Lemma csvLine_free (row : list string) :
  Forall (fun item => has_char newline item = false) row ->
  has_char newline (CustomerControls.csvLine row) = false.
Proof.
  intro Hrow. unfold CustomerControls.csvLine.
  apply has_char_join; [reflexivity|].
  induction Hrow as [|item row Hitem _ IH]; simpl; constructor.
  - apply quoted_free. exact Hitem.
  - exact IH.
Qed.

(** X2.  The exported text, cut at its line breaks, is the header line
    followed by one line per visible customer, in the order of the table,
    provided no exported value holds a line break; it has one line more
    than there are visible customers. *)
Theorem export_has_one_line_per_row :
  forall (customers : list Customers.Customer) (q : Customers.Query),
    Forall (fun node =>
              Forall (fun item => has_char newline item = false)
                     (CustomerControls.exportRow node))
           (Customers.filteredCustomers customers q) ->
    split_on newline (CustomerControls.exportToCSV customers q)
    = join "," CustomerControls.headers
      :: map (fun node => CustomerControls.csvLine (CustomerControls.exportRow node))
             (Customers.filteredCustomers customers q)
    /\ List.length (split_on newline (CustomerControls.exportToCSV customers q))
       = S (List.length (Customers.filteredCustomers customers q)).
Proof.
  intros customers q Hfree.
  assert (Hsplit :
    split_on newline (CustomerControls.exportToCSV customers q)
    = join "," CustomerControls.headers
      :: map (fun node => CustomerControls.csvLine (CustomerControls.exportRow node))
             (Customers.filteredCustomers customers q)).
  { unfold CustomerControls.exportToCSV, CustomerControls.csvContent.
    apply split_on_join; [discriminate|].
    constructor; [reflexivity|].
    induction Hfree as [|node rows Hnode _ IH]; simpl; constructor.
    - apply csvLine_free. exact Hnode.
    - exact IH. }
  split; [exact Hsplit|].
  rewrite Hsplit. simpl. rewrite length_map. reflexivity.
Qed.

(** The precondition of the export, checked by evaluation. *)
Lemma rows_free_by_computation (rows : list Customers.Customer) :
  forallb (fun node =>
             forallb (fun item => negb (has_char newline item))
                     (CustomerControls.exportRow node)) rows = true ->
  Forall (fun node =>
            Forall (fun item => has_char newline item = false)
                   (CustomerControls.exportRow node)) rows.
Proof.
  intro Hall. apply Forall_forall. intros node Hnode.
  apply Forall_forall. intros item Hitem.
  rewrite forallb_forall in Hall. specialize (Hall node Hnode).
  rewrite forallb_forall in Hall. specialize (Hall item Hitem).
  apply negb_true_iff. exact Hall.
Qed.

End CsvExport.

(** * The controls *)

Section Controls.
Context `{Host}.

Lemma orderMatches_cleared (q : Orders.Query) (o : Orders.Order) :
  Orders.orderMatches (OrderControls.handleClearAll q) o = true.
Proof. reflexivity. Qed.

Lemma customerMatches_cleared (q : Customers.Query) (c : Customers.Customer) :
  Customers.customerMatches (CustomerControls.handleClearAll q) c = true.
Proof. reflexivity. Qed.

(** X3.  After "Clear all filters" no filter chip is left and every record
    of the batch is visible: the visible rows are a permutation of the
    batch (in the order of the sort selection, which is kept). *)
Theorem clear_all_shows_every_record :
  forall (orders : list Orders.Order) (oq : Orders.Query)
         (customers : list Customers.Customer) (cq : Customers.Query),
    (OrderControls.appliedFilters (OrderControls.handleClearAll oq) = []
     /\ Permutation
          (Orders.filteredOrders orders (OrderControls.handleClearAll oq))
          orders)
    /\ (CustomerControls.appliedFilters (CustomerControls.handleClearAll cq) = []
        /\ Permutation
             (Customers.filteredCustomers customers
                (CustomerControls.handleClearAll cq))
             customers).
Proof.
  intros orders oq customers cq. split; split; try reflexivity.
  - eapply perm_trans; [apply filteredOrders_perm|].
    rewrite filter_all; [apply Permutation_refl|].
    apply Forall_forall. intros o _. apply orderMatches_cleared.
  - eapply perm_trans; [apply filteredCustomers_perm|].
    rewrite filter_all; [apply Permutation_refl|].
    apply Forall_forall. intros c _. apply customerMatches_cleared.
Qed.

(** A guard of the callback that is the same in two runs. *)
Ltac same_guard :=
  match goal with
  | |- (if ?g then false else _) = true -> (if ?g then false else _) = true =>
      destruct g; [discriminate|]
  end.

Lemma customer_chip_keeps_rows (q : Customers.Query)
  (f : CustomerControls.AppliedFilter) (c : Customers.Customer) :
  In f (CustomerControls.appliedFilters q) ->
  Customers.customerMatches q c = true ->
  Customers.customerMatches (CustomerControls.onRemove f q) c = true.
Proof.
  unfold CustomerControls.appliedFilters. intro Hin.
  repeat (apply in_app_or in Hin; destruct Hin as [Hin|Hin]);
    match type of Hin with
    | In _ (if ?g then _ else _) => destruct g eqn:Hg; [|destruct Hin]
    end;
    (destruct Hin as [<-|[]]);
    unfold Customers.customerMatches;
    cbn [CustomerControls.onRemove CustomerControls.setTagFilter
         CustomerControls.setCountryFilter CustomerControls.setItemsOrderCount
         CustomerControls.setLastOrderDateFilter
         Customers.queryValue Customers.tagFilter Customers.countryFilter
         Customers.itemsOrderCount Customers.lastOrderDateFilter truthy andb];
    rewrite ?Hg; cbn [andb].
  - same_guard.
    destruct (negb _); [discriminate|]. exact (fun Hm => Hm).
  - same_guard. same_guard.
    destruct (negb _); [discriminate|]. exact (fun Hm => Hm).
  - same_guard. same_guard. same_guard.
    destruct (_ && _); [discriminate|]. exact (fun Hm => Hm).
  - same_guard. same_guard. same_guard. same_guard. reflexivity.
Qed.

Lemma customer_chip_keys (q : Customers.Query)
  (f : CustomerControls.AppliedFilter) :
  In f (CustomerControls.appliedFilters q) ->
  map CustomerControls.key
      (CustomerControls.appliedFilters (CustomerControls.onRemove f q))
  = filter (fun k => negb (k =? CustomerControls.key f)%string)
           (map CustomerControls.key (CustomerControls.appliedFilters q)).
Proof.
  unfold CustomerControls.appliedFilters. intro Hin.
  repeat (apply in_app_or in Hin; destruct Hin as [Hin|Hin]);
    match type of Hin with
    | In _ (if ?g then _ else _) => destruct g eqn:Hg; [|destruct Hin]
    end;
    (destruct Hin as [<-|[]]);
    cbn [CustomerControls.onRemove CustomerControls.setTagFilter
         CustomerControls.setCountryFilter CustomerControls.setItemsOrderCount
         CustomerControls.setLastOrderDateFilter CustomerControls.key
         Customers.queryValue Customers.tagFilter Customers.countryFilter
         Customers.itemsOrderCount Customers.lastOrderDateFilter truthy];
    rewrite ?Hg;
    destruct (truthy (Customers.tagFilter q)),
             (truthy (Customers.countryFilter q)),
             (truthy (Customers.itemsOrderCount q)),
             (truthy (Customers.lastOrderDateFilter q));
    try discriminate; reflexivity.
Qed.

(** X4.  Removing a filter chip of the customer list removes that chip and
    no other, and every customer that was visible stays visible. *)
Theorem removing_a_customer_chip :
  forall (customers : list Customers.Customer) (q : Customers.Query)
         (f : CustomerControls.AppliedFilter),
    In f (CustomerControls.appliedFilters q) ->
    map CustomerControls.key
        (CustomerControls.appliedFilters (CustomerControls.onRemove f q))
    = filter (fun k => negb (k =? CustomerControls.key f)%string)
             (map CustomerControls.key (CustomerControls.appliedFilters q))
    /\ forall c, In c (Customers.filteredCustomers customers q) ->
                 In c (Customers.filteredCustomers customers
                         (CustomerControls.onRemove f q)).
Proof.
  intros customers q f Hin. split; [apply customer_chip_keys; exact Hin|].
  intros c Hc.
  apply (Permutation_in _ (filteredCustomers_perm customers q)) in Hc.
  apply filter_In in Hc. destruct Hc as [Hc Hm].
  apply (Permutation_in _
           (Permutation_sym (filteredCustomers_perm customers _))).
  apply filter_In. split; [exact Hc|].
  apply customer_chip_keeps_rows; assumption.
Qed.

Lemma order_chip_keeps_rows (q : Orders.Query)
  (f : OrderControls.AppliedFilter) (o : Orders.Order) :
  In f (OrderControls.appliedFilters q) ->
  Orders.orderMatches q o = true ->
  Orders.orderMatches (OrderControls.onRemove f q) o = true.
Proof.
  unfold OrderControls.appliedFilters. intro Hin.
  repeat (apply in_app_or in Hin; destruct Hin as [Hin|Hin]);
    match type of Hin with
    | In _ (if ?g then _ else _) => destruct g eqn:Hg; [|destruct Hin]
    end;
    (destruct Hin as [<-|[]]);
    unfold Orders.orderMatches;
    cbn [OrderControls.onRemove OrderControls.setStatusFilter
         OrderControls.setProductFilter OrderControls.setDateFilter
         Orders.queryValue Orders.statusFilter Orders.dateFilter
         Orders.productFilter truthy andb List.length Z.of_nat Z.ltb
         Z.compare];
    rewrite ?Hg; cbn [andb].
  - same_guard.
    destruct (negb _); [discriminate|]. exact (fun Hm => Hm).
  - same_guard. same_guard. same_guard.
    destruct (negb _); [discriminate|]. reflexivity.
  - same_guard. same_guard.
    destruct (num_lt _ _); [discriminate|]. exact (fun Hm => Hm).
Qed.

Lemma order_chip_keys (q : Orders.Query) (f : OrderControls.AppliedFilter) :
  In f (OrderControls.appliedFilters q) ->
  map OrderControls.key
      (OrderControls.appliedFilters (OrderControls.onRemove f q))
  = filter (fun k => negb (k =? OrderControls.key f)%string)
           (map OrderControls.key (OrderControls.appliedFilters q)).
Proof.
  unfold OrderControls.appliedFilters. intro Hin.
  repeat (apply in_app_or in Hin; destruct Hin as [Hin|Hin]);
    match type of Hin with
    | In _ (if ?g then _ else _) => destruct g eqn:Hg; [|destruct Hin]
    end;
    (destruct Hin as [<-|[]]);
    cbn [OrderControls.onRemove OrderControls.setStatusFilter
         OrderControls.setProductFilter OrderControls.setDateFilter
         OrderControls.key
         Orders.queryValue Orders.statusFilter Orders.dateFilter
         Orders.productFilter truthy List.length Z.of_nat Z.ltb Z.compare];
    rewrite ?Hg;
    destruct (0 <? Z.of_nat (List.length (Orders.statusFilter q))),
             (truthy (Orders.productFilter q)),
             (truthy (Orders.dateFilter q));
    try discriminate; reflexivity.
Qed.

(** X5.  Removing a filter chip of the order list removes that chip and no
    other, and every order that was visible stays visible. *)
Theorem removing_an_order_chip :
  forall (orders : list Orders.Order) (q : Orders.Query)
         (f : OrderControls.AppliedFilter),
    In f (OrderControls.appliedFilters q) ->
    map OrderControls.key
        (OrderControls.appliedFilters (OrderControls.onRemove f q))
    = filter (fun k => negb (k =? OrderControls.key f)%string)
             (map OrderControls.key (OrderControls.appliedFilters q))
    /\ forall o, In o (Orders.filteredOrders orders q) ->
                 In o (Orders.filteredOrders orders
                         (OrderControls.onRemove f q)).
Proof.
  intros orders q f Hin. split; [apply order_chip_keys; exact Hin|].
  intros o Ho.
  apply (Permutation_in _ (filteredOrders_perm orders q)) in Ho.
  apply filter_In in Ho. destruct Ho as [Ho Hm].
  apply (Permutation_in _ (Permutation_sym (filteredOrders_perm orders _))).
  apply filter_In. split; [exact Ho|].
  apply order_chip_keeps_rows; assumption.
Qed.

End Controls.

(** * The order filters *)

Section OrderFilters.
Context `{Host}.

(** A guard that fires on both sides of an equivalence between two runs
    of the order callback. *)
Ltac skip_order_guards :=
  repeat match goal with
         | |- context [if ?g then false else _] =>
             lazymatch g with
             | num_lt _ _ => fail
             | _ => destruct g eqn:?;
                    [split; [discriminate | intros [? _]; discriminate]|]
             end
         end.

Lemma num_lt_Fin (x y : Q) : num_lt (Fin x) (Fin y) = false <-> (y <= x)%Q.
Proof.
  simpl. unfold Qlt_bool. rewrite negb_false_iff. apply Qle_bool_iff.
Qed.

(** X6.  The date filter of the order list, when active with a valid date:
    an order with a valid timestamp passes iff it passes the other filters
    and its timestamp is at or after the filter date. *)
Theorem order_date_filter :
  forall (q : Orders.Query) (o : Orders.Order) (f t : Q),
    Orders.dateFilter q <> "" ->
    Date_parse (Orders.dateFilter q) = Fin f ->
    Date_parse (Orders.processedAt o) = Fin t ->
    (Orders.orderMatches q o = true
     <-> Orders.orderMatches (OrderControls.setDateFilter "" q) o = true
         /\ (f <= t)%Q).
Proof.
  intros q o f t Hactive Hf Ht.
  unfold Orders.orderMatches, OrderControls.setDateFilter.
  cbn [Orders.queryValue Orders.statusFilter Orders.dateFilter
       Orders.productFilter truthy andb].
  assert (Hd : truthy (Orders.dateFilter q) = true).
  { destruct (Orders.dateFilter q); [congruence | reflexivity]. }
  rewrite Hd, Hf, Ht. cbn [andb].
  skip_order_guards.
  destruct (num_lt (Fin t) (Fin f)) eqn:E.
  - split; [discriminate|]. intros [_ Hle].
    apply num_lt_Fin in Hle. congruence.
  - apply num_lt_Fin in E. tauto.
Qed.

(** X7.  What an active filter does with a missing field: while a status is
    selected an order without financial status is not visible, and while a
    product text is entered an order without line items is not visible. *)
Theorem sparse_orders_fail_active_filters :
  forall (orders : list Orders.Order) (q : Orders.Query) (o : Orders.Order),
    (Orders.statusFilter q <> [] ->
     Orders.displayFinancialStatus o = None ->
     ~ In o (Orders.filteredOrders orders q))
    /\ (Orders.productFilter q <> "" ->
        Orders.lineItems o = [] ->
        ~ In o (Orders.filteredOrders orders q)).
Proof.
  intros orders q o.
  assert (Hvis : Orders.orderMatches q o = false ->
                 ~ In o (Orders.filteredOrders orders q)).
  { intros Hm Hin.
    apply (Permutation_in _ (filteredOrders_perm orders q)) in Hin.
    apply filter_In in Hin. destruct Hin as [_ Hin]. congruence. }
  split.
  - intros Hs Hnone. apply Hvis. unfold Orders.orderMatches.
    rewrite Hnone. destruct (Orders.statusFilter q); [congruence|].
    cbn [negb andb]. destruct (_ && _ && _); reflexivity.
  - intros Hp Hitems. apply Hvis. unfold Orders.orderMatches.
    rewrite Hitems.
    assert (Ht : truthy (Orders.productFilter q) = true).
    { destruct (Orders.productFilter q); [congruence | reflexivity]. }
    rewrite Ht. cbn [existsb negb andb].
    repeat match goal with
           | |- (if ?g then false else _) = false => destruct g; [reflexivity|]
           end.
    reflexivity.
Qed.

End OrderFilters.

(** * The sort options *)

Section SortOptions.
Context `{Host}.

Lemma Array_sort_all_ties {A : Type} (compareFn : A -> A -> Z) (l : list A) :
  (forall a b, compareFn a b <= 0) -> Array_sort compareFn l = l.
Proof.
  intro Hties. induction l as [|x l IH]; simpl; [reflexivity|].
  rewrite IH. destruct l as [|y l]; simpl; [reflexivity|].
  destruct (Z.leb_spec (compareFn x y) 0) as [_|Hgt]; [reflexivity|].
  specialize (Hties x y). lia.
Qed.

Lemma Array_sort_ext {A : Type} (f g : A -> A -> Z) (l : list A) :
  (forall a b, f a b = g a b) -> Array_sort f l = Array_sort g l.
Proof.
  intro Hext. induction l as [|x l IH]; simpl; [reflexivity|].
  rewrite IH. generalize (Array_sort g l). intro m.
  induction m as [|y m IHm]; simpl; [reflexivity|].
  rewrite Hext, IHm. reflexivity.
Qed.

(** X8.  A sort option whose key the comparator does not know leaves the
    rows in the order of the batch: for the order list any key other than
    order, date and total, for the customer list any key other than name
    and date. *)
Theorem unknown_sort_key_keeps_batch_order :
  forall (orders : list Orders.Order) (oq : Orders.Query)
         (customers : list Customers.Customer) (cq : Customers.Query)
         (k : string) (d : option string),
    (sort_selection (Orders.sortSelected oq) = Some (k, d) ->
     k <> "order" -> k <> "date" -> k <> "total" ->
     Orders.filteredOrders orders oq = filter (Orders.orderMatches oq) orders)
    /\ (sort_selection (Customers.sortSelected cq) = Some (k, d) ->
        k <> "name" -> k <> "date" ->
        Customers.filteredCustomers customers cq
        = filter (Customers.customerMatches cq) customers).
Proof.
  intros orders oq customers cq k d. split.
  - intros Hsel H1 H2 H3. unfold Orders.filteredOrders. rewrite Hsel.
    apply Array_sort_all_ties. intros a b.
    unfold Orders.compareOrders, Orders.sortValue.
    apply String.eqb_neq in H1, H2, H3. rewrite H1, H2, H3.
    unfold three_way, js_gt. simpl. lia.
  - intros Hsel H1 H2. unfold Customers.filteredCustomers. rewrite Hsel.
    apply Array_sort_all_ties. intros a b.
    unfold Customers.compareCustomers, Customers.sortValue.
    apply String.eqb_neq in H1, H2. rewrite H1, H2.
    unfold three_way, js_gt. simpl. lia.
Qed.

Lemma three_way_not_asc (d : option string) (a b : sortval) :
  d <> Some "asc" -> three_way d a b = three_way (Some "desc") a b.
Proof.
  intro Hd. unfold three_way.
  assert (E : match d with Some s => (s =? "asc")%string | None => false end
              = false).
  { destruct d as [s|]; [|reflexivity].
    apply String.eqb_neq. congruence. }
  rewrite E. reflexivity.
Qed.

(** X9.  A sort option without direction, or with a direction other than
    asc, sorts as desc does. *)
Theorem direction_defaults_to_desc :
  forall (orders : list Orders.Order) (customers : list Customers.Customer)
         (k : string) (d : option string),
    d <> Some "asc" ->
    Array_sort (Orders.compareOrders k d) orders
    = Array_sort (Orders.compareOrders k (Some "desc")) orders
    /\ Array_sort (Customers.compareCustomers k d) customers
       = Array_sort (Customers.compareCustomers k (Some "desc")) customers.
Proof.
  intros orders customers k d Hd. split; apply Array_sort_ext; intros a b.
  - apply three_way_not_asc. exact Hd.
  - apply three_way_not_asc. exact Hd.
Qed.

End SortOptions.

(** * The order of the visible rows *)

Lemma option_eq_dec_asc (d : option string) : {d = Some "asc"} + {d <> Some "asc"}.
Proof.
  destruct d as [s|]; [|right; discriminate].
  destruct (string_dec s "asc") as [->|Hne]; [left; reflexivity|].
  right. congruence.
Qed.

Section KeyOrder.
Context `{Host}.

Lemma string_ltb_lt (s t : string) :
  String.ltb s t = true <-> String_as_OT.lt s t.
Proof.
  unfold String.ltb. rewrite <- String_as_OT.cmp_lt. unfold String_as_OT.cmp.
  destruct (String.compare s t); split; congruence.
Qed.

Lemma string_ltb_total (s t : string) :
  String.ltb s t = false -> String.ltb t s = false -> s = t.
Proof.
  unfold String.ltb. rewrite (String.compare_antisym t s).
  destruct (String.compare s t) eqn:E; simpl; try discriminate.
  intros _ _. apply String.compare_eq_iff. exact E.
Qed.

Lemma string_ltb_trans (s t u : string) :
  String.ltb s t = true -> String.ltb t u = true -> String.ltb s u = true.
Proof.
  rewrite !string_ltb_lt. apply String_as_OT.lt_trans.
Qed.

(** On strings, "not greater" is transitive. *)
Lemma string_not_gt_trans (s t u : string) :
  String.ltb t s = false -> String.ltb u t = false -> String.ltb u s = false.
Proof.
  intros Hts Hut. destruct (String.ltb u s) eqn:Hus; [|reflexivity].
  destruct (String.ltb s t) eqn:Hst.
  - pose proof (string_ltb_trans _ _ _ Hus Hst). congruence.
  - pose proof (string_ltb_total _ _ Hst Hts). subst. congruence.
Qed.

Lemma num_not_gt_trans (x y z : Q) :
  num_lt (Fin y) (Fin x) = false -> num_lt (Fin z) (Fin y) = false ->
  num_lt (Fin z) (Fin x) = false.
Proof.
  rewrite !num_lt_Fin. intros Hxy Hyz. exact (Qle_trans _ _ _ Hxy Hyz).
Qed.

Lemma js_not_gt_trans (a b c : sortval) :
  uniform a b -> uniform b c ->
  js_lt b a = false -> js_lt c b = false -> js_lt c a = false.
Proof.
  intros [(s & t & -> & ->) | (x & y & -> & ->)]
         [(t' & u & Ht & ->) | (y' & z & Hy & ->)];
    try discriminate; simpl.
  - injection Ht as <-. apply string_not_gt_trans.
  - injection Hy as <-. apply num_not_gt_trans.
Qed.

Lemma three_way_le_asc (a b : sortval) :
  three_way (Some "asc") a b <= 0 <-> js_lt b a = false.
Proof.
  unfold three_way, js_gt. simpl.
  destruct (js_lt a b) eqn:Eab.
  - rewrite (js_lt_asym _ _ Eab). split; [reflexivity | lia].
  - destruct (js_lt b a); split; try reflexivity; try lia; discriminate.
Qed.

Lemma three_way_le_desc (a b : sortval) :
  three_way (Some "desc") a b <= 0 <-> js_lt a b = false.
Proof.
  unfold three_way, js_gt. simpl.
  destruct (js_lt a b) eqn:Eab.
  - split; [lia | discriminate].
  - destruct (js_lt b a); split; try reflexivity; lia.
Qed.

Lemma three_way_le_direction (d : option string) (a b : sortval) :
  three_way d a b <= 0 <-> inDirection d a b.
Proof.
  unfold inDirection, ascending.
  destruct (option_eq_dec_asc d) as [->|Hd].
  - apply three_way_le_asc.
  - rewrite (three_way_not_asc d a b Hd), three_way_le_desc.
    destruct d as [s|]; [|reflexivity].
    destruct (String.eqb_spec s "asc") as [->|Hne]; [congruence | reflexivity].
Qed.

End KeyOrder.

Section SortedRows.
Context {A : Type} (compareFn : A -> A -> Z) (P : A -> Prop).
Hypothesis compare_trans :
  forall a b c, P a -> P b -> P c ->
                compareFn a b <= 0 -> compareFn b c <= 0 -> compareFn a c <= 0.
Hypothesis compare_total :
  forall a b, P a -> P b -> 0 < compareFn a b -> compareFn b a <= 0.

Lemma sort_insert_sorted (x : A) (l : list A) :
  P x -> Forall P l ->
  StronglySorted (fun a b => compareFn a b <= 0) l ->
  StronglySorted (fun a b => compareFn a b <= 0) (sort_insert compareFn x l).
Proof.
  intros Px HP Hs. induction Hs as [|y l Hs IH Hy]; simpl.
  - repeat constructor.
  - inversion HP as [|? ? Py HPl]; subst.
    destruct (Z.leb_spec (compareFn x y) 0) as [Hle|Hgt].
    + constructor; [constructor; assumption|].
      constructor; [exact Hle|].
      rewrite Forall_forall in *. intros z Hz.
      apply (compare_trans x y z); auto.
    + constructor; [apply IH; exact HPl|].
      apply Forall_forall. intros z Hz.
      apply (Permutation_in _ (sort_insert_perm compareFn x l)) in Hz.
      destruct Hz as [<-|Hz].
      * apply compare_total; assumption.
      * rewrite Forall_forall in Hy. apply Hy. exact Hz.
Qed.

Lemma Array_sort_sorted (l : list A) :
  Forall P l ->
  StronglySorted (fun a b => compareFn a b <= 0) (Array_sort compareFn l).
Proof.
  induction 1 as [|x l Px HP IH]; simpl.
  - constructor.
  - apply sort_insert_sorted; try assumption.
    apply Array_sort_Forall. exact HP.
Qed.

End SortedRows.

Lemma StronglySorted_weaken {A : Type} (R R' : A -> A -> Prop) (l : list A) :
  (forall a b, R a b -> R' a b) -> StronglySorted R l -> StronglySorted R' l.
Proof.
  intros Himp Hs. induction Hs as [|x l Hs IH Hx]; constructor.
  - exact IH.
  - rewrite Forall_forall in *. intros y Hy. apply Himp, Hx, Hy.
Qed.

Section RowsInKeyOrder.
Context `{Host}.

Lemma uniform_sym (v w : sortval) : uniform v w -> uniform w v.
Proof.
  intros [(s & t & -> & ->) | (x & y & -> & ->)]; [left | right]; eauto.
Qed.

Lemma sorted_by_projection {A : Type} (proj : A -> sortval)
  (d : option string) (batch : list A) (p : A -> bool) :
  (forall a b, In a batch -> In b batch -> uniform (proj a) (proj b)) ->
  StronglySorted (fun a b => inDirection d (proj a) (proj b))
    (Array_sort (fun a b => three_way d (proj a) (proj b)) (filter p batch)).
Proof.
  intro Huni.
  apply StronglySorted_weaken with
    (R := fun a b => three_way d (proj a) (proj b) <= 0).
  { intros a b. apply three_way_le_direction. }
  apply (Array_sort_sorted _ (fun a => In a batch)).
  - intros a b c Ha Hb Hc. rewrite !three_way_le_direction.
    unfold inDirection. destruct (ascending d).
    + intros Hab Hbc. apply (js_not_gt_trans _ (proj b)); auto.
    + intros Hab Hbc. apply (js_not_gt_trans _ (proj b)); auto.
  - intros a b _ _. apply three_way_antisym.
  - apply Forall_forall. intros a Ha. apply filter_In in Ha. tauto.
Qed.

End RowsInKeyOrder.

Section VisibleOrder.
Context `{Host}.

(** X10.  With a sort option selected and a batch whose sort keys are all
    strings or all proper numbers, the visible rows are in key order from
    top to bottom: under asc no row has a key greater than the key of a row
    below it, under any other direction none has a smaller one. *)
Theorem visible_rows_in_key_order :
  forall (orders : list Orders.Order) (oq : Orders.Query)
         (customers : list Customers.Customer) (cq : Customers.Query)
         (k : string) (d : option string),
    (sort_selection (Orders.sortSelected oq) = Some (k, d) ->
     (forall a b, In a orders -> In b orders ->
                  uniform (Orders.sortValue k a) (Orders.sortValue k b)) ->
     StronglySorted
       (fun a b => inDirection d (Orders.sortValue k a) (Orders.sortValue k b))
       (Orders.filteredOrders orders oq))
    /\ (sort_selection (Customers.sortSelected cq) = Some (k, d) ->
        (forall a b, In a customers -> In b customers ->
                     uniform (Customers.sortValue k a) (Customers.sortValue k b)) ->
        StronglySorted
          (fun a b => inDirection d (Customers.sortValue k a)
                                    (Customers.sortValue k b))
          (Customers.filteredCustomers customers cq)).
Proof.
  intros orders oq customers cq k d. split; intros Hsel Huni.
  - unfold Orders.filteredOrders. rewrite Hsel.
    apply (sorted_by_projection (Orders.sortValue k) d orders). exact Huni.
  - unfold Customers.filteredCustomers. rewrite Hsel.
    apply (sorted_by_projection (Customers.sortValue k) d customers).
    exact Huni.
Qed.

(** Rows kept by a filter have distinct keys when all rows have. *)
Lemma kept_rows_distinct {Row Key : Type} (key : Row -> Key)
  (keep : Row -> bool) (rows : list Row) (Hnd : NoDup (map key rows)) :
  NoDup (map key (filter keep rows)).
Proof.
  revert Hnd. induction rows as [|r rows IH]; simpl; intro Hnd.
  - constructor.
  - apply NoDup_cons_iff in Hnd. destruct Hnd as [Hfresh Hrest].
    destruct (keep r); simpl; [|exact (IH Hrest)].
    apply NoDup_cons_iff. split; [|exact (IH Hrest)].
    intro Hin. apply Hfresh. apply in_map_iff in Hin.
    destruct Hin as (r' & Hkey & Hin). apply filter_In in Hin.
    apply in_map_iff. exists r'. tauto.
Qed.

(** X11.  When the identifiers of a batch are pairwise distinct, so are the
    identifiers of the visible rows (the keys of the table rows), whatever
    the query. *)
Theorem visible_ids_stay_distinct :
  forall (orders : list Orders.Order) (oq : Orders.Query)
         (customers : list Customers.Customer) (cq : Customers.Query),
    (NoDup (map Orders.id orders) ->
     NoDup (map Orders.id (Orders.filteredOrders orders oq)))
    /\ (NoDup (map Customers.id customers) ->
        NoDup (map Customers.id (Customers.filteredCustomers customers cq))).
Proof.
  intros orders oq customers cq. split; intro Hnd.
  - apply (Permutation_NoDup
             (Permutation_sym
                (Permutation_map Orders.id (filteredOrders_perm orders oq)))).
    apply kept_rows_distinct. exact Hnd.
  - apply (Permutation_NoDup
             (Permutation_sym
                (Permutation_map Customers.id
                   (filteredCustomers_perm customers cq)))).
    apply kept_rows_distinct. exact Hnd.
Qed.

End VisibleOrder.

(** * The store-health metrics *)

Section StoreHealthMetrics.
Context `{Host}.

Lemma loader_Ok_inv (now : Z) (customers : list StoreHealth.Customer)
  (orders : list StoreHealth.Order) (d : StoreHealth.LoaderData) :
  StoreHealth.loader now customers orders = Ok d ->
  mapM StoreHealth.refundHeavyRow (StoreHealth.refundHeavyCustomers customers)
  = Ok (StoreHealth.refundHeavy (StoreHealth.lists d))
  /\ StoreHealth.ordersLast7d (StoreHealth.metrics d)
     = count (fun o => num_ge (Date_parse (StoreHealth.orderProcessedAt o))
                              (num_of_Z (now - 7 * StoreHealth.day_ms))) orders
  /\ StoreHealth.ordersPrev7d (StoreHealth.metrics d)
     = count (fun o =>
                num_ge (Date_parse (StoreHealth.orderProcessedAt o))
                       (num_of_Z (now - 14 * StoreHealth.day_ms))
                && num_lt (Date_parse (StoreHealth.orderProcessedAt o))
                          (num_of_Z (now - 7 * StoreHealth.day_ms))) orders
  /\ StoreHealth.orderTrend (StoreHealth.metrics d)
     = StoreHealth.ordersLast7d (StoreHealth.metrics d)
       - StoreHealth.ordersPrev7d (StoreHealth.metrics d)
  /\ StoreHealth.inactiveCount90 (StoreHealth.metrics d)
     = Z.of_nat (List.length (StoreHealth.inactiveCustomers90 now customers)).
Proof.
  unfold StoreHealth.loader.
  destruct (mapM StoreHealth.refundHeavyRow
              (StoreHealth.refundHeavyCustomers customers)) as [rows|m];
    [|discriminate].
  rewrite atRiskCustomers_nil. simpl. intro Hd. injection Hd as <-.
  simpl. auto.
Qed.

(** An order falls in the last seven days, or in the seven days before, or
    before the last fourteen days, never in two of them. *)
Lemma windows_split (now : Z) (t : number) :
  Z.b2z (num_ge t (num_of_Z (now - 7 * StoreHealth.day_ms)))
  + Z.b2z (num_ge t (num_of_Z (now - 14 * StoreHealth.day_ms))
           && num_lt t (num_of_Z (now - 7 * StoreHealth.day_ms)))
  = Z.b2z (num_ge t (num_of_Z (now - 14 * StoreHealth.day_ms))).
Proof.
  destruct t as [| | |x]; try reflexivity.
  unfold num_ge.
  destruct (num_lt (Fin x) (num_of_Z (now - 7 * StoreHealth.day_ms))) eqn:E7;
    destruct (num_lt (Fin x) (num_of_Z (now - 14 * StoreHealth.day_ms))) eqn:E14;
    simpl; try reflexivity.
  exfalso. unfold num_of_Z in *. apply num_lt_Fin in E7.
  simpl in E14. apply Qlt_bool_iff in E14.
  assert (Hlt : (inject_Z (now - 14 * StoreHealth.day_ms)
                 < inject_Z (now - 7 * StoreHealth.day_ms))%Q).
  { rewrite <- Zlt_Qlt. unfold StoreHealth.day_ms. lia. }
  apply (Qlt_irrefl x).
  eapply Qlt_trans; [exact E14|]. eapply Qlt_le_trans; [exact Hlt | exact E7].
Qed.

Lemma count_b2z {A : Type} (p : A -> bool) (l : list A) :
  count p l = fold_right (fun x acc => Z.b2z (p x) + acc) 0 l.
Proof.
  unfold count. induction l as [|x l IH]; simpl; [reflexivity|].
  destruct (p x); simpl List.length; rewrite <- IH; simpl Z.b2z; lia.
Qed.

Lemma windows_counts (now : Z) (orders : list StoreHealth.Order) :
  count (fun o => num_ge (Date_parse (StoreHealth.orderProcessedAt o))
                         (num_of_Z (now - 7 * StoreHealth.day_ms))) orders
  + count (fun o =>
             num_ge (Date_parse (StoreHealth.orderProcessedAt o))
                    (num_of_Z (now - 14 * StoreHealth.day_ms))
             && num_lt (Date_parse (StoreHealth.orderProcessedAt o))
                       (num_of_Z (now - 7 * StoreHealth.day_ms))) orders
  = count (fun o => num_ge (Date_parse (StoreHealth.orderProcessedAt o))
                           (num_of_Z (now - 14 * StoreHealth.day_ms))) orders.
Proof.
  rewrite !count_b2z.
  induction orders as [|o l IH]; cbn [fold_right]; [reflexivity|].
  rewrite <- IH,
    <- (windows_split now (Date_parse (StoreHealth.orderProcessedAt o))).
  lia.
Qed.

(** X12.  The two order windows of the loader do not overlap and together
    cover the last fourteen days: ordersLast7d + ordersPrev7d is the number
    of orders processed at or after fourteen days before now, and
    orderTrend is their difference. *)
Theorem order_windows_cover_fourteen_days :
  forall (now : Z) (customers : list StoreHealth.Customer)
         (orders : list StoreHealth.Order) (d : StoreHealth.LoaderData),
    StoreHealth.loader now customers orders = Ok d ->
    StoreHealth.ordersLast7d (StoreHealth.metrics d)
    + StoreHealth.ordersPrev7d (StoreHealth.metrics d)
    = count (fun o => num_ge (Date_parse (StoreHealth.orderProcessedAt o))
                             (num_of_Z (now - 14 * StoreHealth.day_ms))) orders
    /\ StoreHealth.orderTrend (StoreHealth.metrics d)
       = StoreHealth.ordersLast7d (StoreHealth.metrics d)
         - StoreHealth.ordersPrev7d (StoreHealth.metrics d)
    /\ StoreHealth.ordersLast7d (StoreHealth.metrics d)
       + StoreHealth.ordersPrev7d (StoreHealth.metrics d)
       <= Z.of_nat (List.length orders).
Proof.
  intros now customers orders d Hd.
  destruct (loader_Ok_inv now customers orders d Hd)
    as (_ & H7 & H14 & Htrend & _).
  assert (Hsum :
    StoreHealth.ordersLast7d (StoreHealth.metrics d)
    + StoreHealth.ordersPrev7d (StoreHealth.metrics d)
    = count (fun o => num_ge (Date_parse (StoreHealth.orderProcessedAt o))
                             (num_of_Z (now - 14 * StoreHealth.day_ms))) orders).
  { rewrite H7, H14. apply windows_counts. }
  split; [exact Hsum|]. split; [exact Htrend|].
  rewrite Hsum. unfold count. apply inj_le. apply filter_length_le.
Qed.

Lemma mapM_Ok_inv {A B : Type} (f : A -> result B) (l : list A) (ys : list B) :
  mapM f l = Ok ys -> Forall2 (fun x y => f x = Ok y) l ys.
Proof.
  revert ys. induction l as [|x l IH]; simpl; intros ys Hm.
  - injection Hm as <-. constructor.
  - destruct (f x) as [y|m] eqn:Ex; simpl in Hm; [|discriminate].
    destruct (mapM f l) as [ys'|m]; simpl in Hm; [|discriminate].
    injection Hm as <-. constructor; [exact Ex | apply IH; reflexivity].
Qed.

Lemma refund_flavored_includes (o : StoreHealth.RecentOrder) :
  StoreHealth.isRefundFlavored o = true ->
  StoreHealth.statusIncludesRefunded o = Ok true.
Proof.
  unfold StoreHealth.isRefundFlavored, StoreHealth.statusIncludesRefunded,
    strict_eq.
  destruct (StoreHealth.displayFinancialStatus o) as [st|]; [|discriminate].
  intro Hst. apply orb_true_iff in Hst.
  destruct Hst as [Hst|Hst]; apply String.eqb_eq in Hst; subst; reflexivity.
Qed.

Lemma countM_at_least (l : list StoreHealth.RecentOrder) (n : Z) :
  StoreHealth.countM StoreHealth.statusIncludesRefunded l = Ok n ->
  count StoreHealth.isRefundFlavored l <= n.
Proof.
  revert n. unfold count.
  induction l as [|o l IH]; cbn [StoreHealth.countM filter]; intros n Hn.
  - injection Hn as <-. simpl. lia.
  - destruct (StoreHealth.statusIncludesRefunded o) as [b|m] eqn:Eo;
      cbn [bind] in Hn; [|discriminate].
    destruct (StoreHealth.countM StoreHealth.statusIncludesRefunded l)
      as [n'|m]; cbn [bind] in Hn; [|discriminate].
    injection Hn as <-. specialize (IH n' eq_refl).
    destruct (StoreHealth.isRefundFlavored o) eqn:Ef.
    + rewrite (refund_flavored_includes o Ef) in Eo. injection Eo as <-.
      cbn [List.length]. rewrite Nat2Z.inj_succ.
      change (Z.succ (Z.of_nat (List.length
                (filter StoreHealth.isRefundFlavored l))) <= 1 + n').
      lia.
    + destruct b; [change (Z.of_nat (List.length
                     (filter StoreHealth.isRefundFlavored l)) <= 1 + n')|]; lia.
Qed.

(** X13.  When the loader returns, the refund-heavy list has one row per
    customer with more than one REFUNDED or PARTIALLY_REFUNDED recent order,
    in batch order, and the refund count shown in each row is at least 2. *)
Theorem refund_rows_show_at_least_two :
  forall (now : Z) (customers : list StoreHealth.Customer)
         (orders : list StoreHealth.Order) (d : StoreHealth.LoaderData),
    StoreHealth.loader now customers orders = Ok d ->
    map StoreHealth.rh_id (StoreHealth.refundHeavy (StoreHealth.lists d))
    = map StoreHealth.id (StoreHealth.refundHeavyCustomers customers)
    /\ Forall (fun row => 2 <= StoreHealth.refunds row)
              (StoreHealth.refundHeavy (StoreHealth.lists d)).
Proof.
  intros now customers orders d Hd.
  destruct (loader_Ok_inv now customers orders d Hd) as (Hrows & _).
  apply mapM_Ok_inv in Hrows.
  assert (Hheavy : Forall (fun c => 1 < count StoreHealth.isRefundFlavored
                                          (StoreHealth.orders c))
                          (StoreHealth.refundHeavyCustomers customers)).
  { apply Forall_forall. intros c Hc.
    unfold StoreHealth.refundHeavyCustomers in Hc. apply filter_In in Hc.
    destruct Hc as [_ Hc]. apply Z.ltb_lt. exact Hc. }
  induction Hrows as [|c row cs rows Hrow _ IH]; simpl.
  - split; constructor.
  - inversion Hheavy as [|? ? Hc Hcs]; subst.
    destruct (IH Hcs) as [Hids Hcounts].
    unfold StoreHealth.refundHeavyRow in Hrow.
    destruct (StoreHealth.countM StoreHealth.statusIncludesRefunded
                (StoreHealth.orders c)) as [n|m] eqn:En;
      simpl in Hrow; [|discriminate].
    injection Hrow as <-. simpl. split; [f_equal; exact Hids|].
    constructor; [|exact Hcounts].
    simpl. pose proof (countM_at_least _ _ En). lia.
Qed.

Lemma filter_length_implies {A : Type} (p p' : A -> bool) (l : list A) :
  (forall x, In x l -> p x = true -> p' x = true) ->
  (List.length (filter p l) <= List.length (filter p' l))%nat.
Proof.
  induction l as [|x l IH]; simpl; intro Himp; [lia|].
  assert (IH' := IH (fun y Hy => Himp y (or_intror Hy))).
  destruct (p x) eqn:Px.
  - rewrite (Himp x (or_introl eq_refl) Px). simpl. lia.
  - destruct (p' x); simpl; lia.
Qed.

Lemma num_lt_later (t : number) (a b : Z) :
  a <= b -> num_lt t (num_of_Z a) = true -> num_lt t (num_of_Z b) = true.
Proof.
  intro Hab. destruct t as [| | |x]; simpl; try congruence.
  rewrite !Qlt_bool_iff. intro Hx.
  eapply Qlt_le_trans; [exact Hx|]. rewrite <- Zle_Qle. exact Hab.
Qed.

(** X14.  On the same batch the inactive count of the loader does not
    decrease as the clock advances: a customer counted as inactive for 90
    days at one time is counted at every later time, and a customer without
    last order is counted at all times. *)
Theorem inactive_count_grows_with_time :
  forall (now1 now2 : Z) (customers : list StoreHealth.Customer)
         (orders : list StoreHealth.Order) (d1 d2 : StoreHealth.LoaderData),
    now1 <= now2 ->
    StoreHealth.loader now1 customers orders = Ok d1 ->
    StoreHealth.loader now2 customers orders = Ok d2 ->
    StoreHealth.inactiveCount90 (StoreHealth.metrics d1)
    <= StoreHealth.inactiveCount90 (StoreHealth.metrics d2)
    /\ (forall c, In c (StoreHealth.inactiveCustomers90 now1 customers) ->
                  In c (StoreHealth.inactiveCustomers90 now2 customers))
    /\ (forall c, In c customers -> StoreHealth.lastOrder c = None ->
                  In c (StoreHealth.inactiveCustomers90 now1 customers)).
Proof.
  intros now1 now2 customers orders d1 d2 Hle H1 H2.
  destruct (loader_Ok_inv _ _ _ _ H1) as (_ & _ & _ & _ & ->).
  destruct (loader_Ok_inv _ _ _ _ H2) as (_ & _ & _ & _ & ->).
  assert (Himp : forall c,
    match StoreHealth.lastOrder c with
    | None => true
    | Some lo => num_lt (Date_parse (StoreHealth.processedAt lo))
                        (num_of_Z (now1 - 90 * StoreHealth.day_ms))
    end = true ->
    match StoreHealth.lastOrder c with
    | None => true
    | Some lo => num_lt (Date_parse (StoreHealth.processedAt lo))
                        (num_of_Z (now2 - 90 * StoreHealth.day_ms))
    end = true).
  { intros c. destruct (StoreHealth.lastOrder c) as [lo|]; [|reflexivity].
    apply num_lt_later. lia. }
  split; [|split].
  - apply inj_le. unfold StoreHealth.inactiveCustomers90.
    apply filter_length_implies. intros c _. apply Himp.
  - intros c Hc. unfold StoreHealth.inactiveCustomers90 in *.
    apply filter_In in Hc. apply filter_In. split; [tauto|].
    apply Himp. tauto.
  - intros c Hc Hnone. unfold StoreHealth.inactiveCustomers90.
    apply filter_In. split; [exact Hc|]. rewrite Hnone. reflexivity.
Qed.

End StoreHealthMetrics.

(** * When the loader raises *)

Section LoaderFailure.
Context `{Host}.

Lemma mapM_raises {A B : Type} (f : A -> result B) (l : list A) :
  Exists (fun x => exists m, f x = TypeError m) l ->
  exists m, mapM f l = TypeError m.
Proof.
  induction 1 as [x l [m Hm]|x l _ [m IH]]; simpl.
  - rewrite Hm. simpl. eexists. reflexivity.
  - destruct (f x) as [y|m']; simpl.
    + rewrite IH. simpl. eexists. reflexivity.
    + eexists. reflexivity.
Qed.

Lemma mapM_raises_inv {A B : Type} (f : A -> result B) (l : list A) (m : string) :
  mapM f l = TypeError m -> Exists (fun x => exists m', f x = TypeError m') l.
Proof.
  induction l as [|x l IH]; simpl; [discriminate|].
  destruct (f x) as [y|m'] eqn:Ex; simpl.
  - destruct (mapM f l) as [ys|m'']; simpl; [discriminate|].
    intros Hm. apply Exists_cons_tl. apply IH. exact Hm.
  - intros _. apply Exists_cons_hd. exists m'. exact Ex.
Qed.

Lemma countM_raises_inv (l : list StoreHealth.RecentOrder) (m : string) :
  StoreHealth.countM StoreHealth.statusIncludesRefunded l = TypeError m ->
  Exists (fun o => StoreHealth.displayFinancialStatus o = None) l.
Proof.
  induction l as [|o l IH]; cbn [StoreHealth.countM]; [discriminate|].
  unfold StoreHealth.statusIncludesRefunded at 1.
  destruct (StoreHealth.displayFinancialStatus o) as [st|] eqn:Est.
  - cbn [bind].
    destruct (StoreHealth.countM StoreHealth.statusIncludesRefunded l)
      as [n|m'']; cbn [bind]; [discriminate|].
    intros Hm. apply Exists_cons_tl. apply IH. exact Hm.
  - intros _. apply Exists_cons_hd. exact Est.
Qed.

Lemma refundHeavyRow_raises (c : StoreHealth.Customer) :
  (exists m, StoreHealth.refundHeavyRow c = TypeError m)
  <-> Exists (fun o => StoreHealth.displayFinancialStatus o = None)
             (StoreHealth.orders c).
Proof.
  unfold StoreHealth.refundHeavyRow. split.
  - intros [m Hm].
    destruct (StoreHealth.countM StoreHealth.statusIncludesRefunded
                (StoreHealth.orders c)) as [n|m'] eqn:En;
      cbn [bind] in Hm; [discriminate|].
    exact (countM_raises_inv _ _ En).
  - intro Hex. destruct (countM_status_absent _ Hex) as [m Hm].
    rewrite Hm. cbn [bind]. eexists. reflexivity.
Qed.

(** X15.  The loader raises exactly when a customer with more than one
    REFUNDED or PARTIALLY_REFUNDED recent order has a recent order without
    financial status; on every other batch it returns. *)
Theorem loader_raises_exactly :
  forall (now : Z) (customers : list StoreHealth.Customer)
         (orders : list StoreHealth.Order),
    (exists m, StoreHealth.loader now customers orders = TypeError m)
    <-> Exists (fun c =>
                  Exists (fun o => StoreHealth.displayFinancialStatus o = None)
                         (StoreHealth.orders c))
               (StoreHealth.refundHeavyCustomers customers).
Proof.
  intros now customers orders. unfold StoreHealth.loader.
  rewrite atRiskCustomers_nil. cbn [mapM].
  split.
  - intros [m Hm].
    destruct (mapM StoreHealth.refundHeavyRow
                (StoreHealth.refundHeavyCustomers customers))
      as [rows|m'] eqn:Erows; cbn [bind] in Hm; [discriminate|].
    apply mapM_raises_inv in Erows.
    apply Exists_exists in Erows. destruct Erows as (c & Hc & Hraise).
    apply Exists_exists. exists c. split; [exact Hc|].
    apply refundHeavyRow_raises. exact Hraise.
  - intro Hex.
    destruct (mapM_raises StoreHealth.refundHeavyRow
                (StoreHealth.refundHeavyCustomers customers)) as [m Hm].
    { apply Exists_exists in Hex. destruct Hex as (c & Hc & Hnone).
      apply Exists_exists. exists c. split; [exact Hc|].
      apply refundHeavyRow_raises. exact Hnone. }
    rewrite Hm. cbn [bind]. eexists. reflexivity.
Qed.

End LoaderFailure.

(** * The product modal *)

Lemma products_run_snoc (events : list Products.event) (e : Products.event) :
  Products.run (events ++ [e]) = Products.step (Products.run events) e.
Proof. unfold Products.run. rewrite fold_left_app. reflexivity. Qed.

(** X16.  After any sequence of "View Details" clicks and closes the modal
    shows the product of the last click when the last event is a click and
    is closed with no product selected otherwise; it is open exactly when a
    product is selected, and its admin link is empty exactly when it is
    closed. *)
Theorem modal_follows_last_event :
  forall events : list Products.event,
    Products.run events
    = match rev events with
      | Products.ViewDetails p :: _ =>
          {| Products.selectedProduct := Some p; Products.active := true |}
      | _ => Products.initial
      end
    /\ (Products.active (Products.run events) = true
        <-> Products.selectedProduct (Products.run events) <> None)
    /\ (Products.adminUrl (Products.run events) = ""
        <-> Products.active (Products.run events) = false).
Proof.
  intro events.
  assert (Hlast :
    Products.run events
    = match rev events with
      | Products.ViewDetails p :: _ =>
          {| Products.selectedProduct := Some p; Products.active := true |}
      | _ => Products.initial
      end).
  { destruct events as [|e0 events0] using rev_ind; [reflexivity|].
    rewrite products_run_snoc, rev_app_distr. simpl.
    destruct e0; reflexivity. }
  split; [exact Hlast|]. rewrite Hlast.
  destruct (rev events) as [|[p|] l]; simpl; unfold Products.adminUrl; simpl;
    repeat split; intros; try congruence; try discriminate.
Qed.

(** * The profile page *)

(** X17.  Once the fetch has ended the profile page no longer shows the
    loading banner; it shows the profile cards exactly when the response
    had no errors and a customer, and the "Profile Unavailable" banner only
    when the recorded error text is empty (an error thrown with an empty
    message, or errors whose text is empty). *)
Theorem profile_view_after_fetch :
  forall o : Profile.outcome,
    Profile.loading (Profile.fetchProfile o Profile.initial) = false
    /\ Profile.render (Profile.fetchProfile o Profile.initial)
       <> Profile.LoadingBanner
    /\ (forall p,
          Profile.render (Profile.fetchProfile o Profile.initial)
          = Profile.ProfileCards p
          <-> o = Profile.Responded None (Some p))
    /\ (Profile.render (Profile.fetchProfile o Profile.initial)
        = Profile.UnavailableBanner
        <-> o = Profile.Threw ""
            \/ exists c, o = Profile.Responded (Some "") c).
Proof.
  intro o. split; [reflexivity|].
  destruct o as [m|[e|] [c|]]; unfold Profile.render; simpl.
  - destruct m as [|a m]; simpl; repeat split; intros;
      try discriminate; try congruence; auto;
      repeat match goal with
             | Hx : _ \/ _ |- _ => destruct Hx
             | Hx : exists _, _ |- _ => destruct Hx
             end; discriminate.
  - destruct e as [|a e]; simpl; repeat split; intros;
      try discriminate; try congruence; eauto;
      repeat match goal with
             | Hx : _ \/ _ |- _ => destruct Hx
             | Hx : exists _, _ |- _ => destruct Hx
             end; discriminate.
  - destruct e as [|a e]; simpl; repeat split; intros;
      try discriminate; try congruence; eauto;
      repeat match goal with
             | Hx : _ \/ _ |- _ => destruct Hx
             | Hx : exists _, _ |- _ => destruct Hx
             end; discriminate.
  - repeat split; intros; try discriminate; try congruence;
      repeat match goal with
             | Hx : _ \/ _ |- _ => destruct Hx
             | Hx : exists _, _ |- _ => destruct Hx
             end; discriminate.
  - repeat split; intros; try discriminate; try congruence;
      repeat match goal with
             | Hx : _ \/ _ |- _ => destruct Hx
             | Hx : exists _, _ |- _ => destruct Hx
             end; discriminate.
Qed.

(** * More runs on the reference host *)

Section MoreReferenceRuns.
Import ReferenceHost ReferenceDateFormat.

Lemma export_has_one_line_per_row_witness :
  Forall (fun node =>
            Forall (fun item => has_char newline item = false)
                   (CustomerControls.exportRow node))
         (Customers.filteredCustomers twoCustomers tagAndCountQuery)
  /\ List.length
       (split_on newline (CustomerControls.exportToCSV twoCustomers tagAndCountQuery))
     = 3%nat.
Proof.
  assert (Hfree :
    Forall (fun node =>
              Forall (fun item => has_char newline item = false)
                     (CustomerControls.exportRow node))
           (Customers.filteredCustomers twoCustomers tagAndCountQuery)).
  { apply rows_free_by_computation. vm_compute. reflexivity. }
  split; [exact Hfree|].
  rewrite (proj2 (export_has_one_line_per_row twoCustomers tagAndCountQuery Hfree)).
  vm_compute. reflexivity.
Defined.

Lemma removing_a_customer_chip_witness :
  In tagChip (CustomerControls.appliedFilters tagAndCountQuery)
  /\ map CustomerControls.key
         (CustomerControls.appliedFilters
            (CustomerControls.onRemove tagChip tagAndCountQuery))
     = ["orderCount"].
Proof.
  assert (Hin : In tagChip (CustomerControls.appliedFilters tagAndCountQuery))
    by (left; reflexivity).
  split; [exact Hin|].
  rewrite (proj1 (removing_a_customer_chip twoCustomers tagAndCountQuery tagChip Hin)).
  reflexivity.
Defined.

Lemma removing_an_order_chip_witness :
  In dateChip (OrderControls.appliedFilters busyQuery)
  /\ map OrderControls.key
         (OrderControls.appliedFilters (OrderControls.onRemove dateChip busyQuery))
     = ["status"; "product"].
Proof.
  assert (Hin : In dateChip (OrderControls.appliedFilters busyQuery))
    by (right; right; left; reflexivity).
  split; [exact Hin|].
  rewrite (proj1 (removing_an_order_chip threeOrders busyQuery dateChip Hin)).
  reflexivity.
Defined.

Lemma order_date_filter_witness :
  Orders.dateFilter (dateQuery "2024-01-15" []) <> ""
  /\ Date_parse (Orders.dateFilter (dateQuery "2024-01-15" []))
     = Fin (inject_Z 1705276800000)
  /\ Date_parse (Orders.processedAt (plainOrder "PAID"))
     = Fin (inject_Z 1704888000000)
  /\ Orders.orderMatches (dateQuery "2024-01-15" []) (plainOrder "PAID") = false.
Proof.
  assert (Hact : Orders.dateFilter (dateQuery "2024-01-15" []) <> "")
    by discriminate.
  assert (Hf : Date_parse (Orders.dateFilter (dateQuery "2024-01-15" []))
               = Fin (inject_Z 1705276800000)) by (vm_compute; reflexivity).
  assert (Ht : Date_parse (Orders.processedAt (plainOrder "PAID"))
               = Fin (inject_Z 1704888000000)) by (vm_compute; reflexivity).
  split; [exact Hact|]. split; [exact Hf|]. split; [exact Ht|].
  destruct (Orders.orderMatches (dateQuery "2024-01-15" []) (plainOrder "PAID"))
    eqn:E; [|reflexivity].
  apply (order_date_filter _ _ _ _ Hact Hf Ht) in E.
  destruct E as [_ Hle]. rewrite <- Zle_Qle in Hle. lia.
Defined.

Lemma sparse_orders_fail_active_filters_witness :
  Orders.statusFilter busyQuery <> []
  /\ Orders.productFilter busyQuery <> ""
  /\ Orders.displayFinancialStatus (nth 1 threeOrders (plainOrder "PAID")) = None
  /\ Orders.lineItems (nth 1 threeOrders (plainOrder "PAID")) = []
  /\ ~ In (nth 1 threeOrders (plainOrder "PAID"))
          (Orders.filteredOrders threeOrders busyQuery).
Proof.
  assert (Hs : Orders.statusFilter busyQuery <> []) by discriminate.
  assert (Hp : Orders.productFilter busyQuery <> "") by discriminate.
  split; [exact Hs|]. split; [exact Hp|].
  split; [reflexivity|]. split; [reflexivity|].
  exact (proj1 (sparse_orders_fail_active_filters threeOrders busyQuery
                  (nth 1 threeOrders (plainOrder "PAID"))) Hs eq_refl).
Defined.

Lemma unknown_sort_key_keeps_batch_order_witness :
  sort_selection (Customers.sortSelected totalSortQuery)
  = Some ("total", Some "asc")
  /\ "total" <> "name" /\ "total" <> "date"
  /\ Customers.filteredCustomers twoCustomers totalSortQuery = twoCustomers.
Proof.
  assert (Hsel : sort_selection (Customers.sortSelected totalSortQuery)
                 = Some ("total", Some "asc")) by reflexivity.
  assert (H1 : "total" <> "name") by discriminate.
  assert (H2 : "total" <> "date") by discriminate.
  split; [exact Hsel|]. split; [exact H1|]. split; [exact H2|].
  rewrite (proj2 (unknown_sort_key_keeps_batch_order
                    [] noOrderQuery twoCustomers totalSortQuery
                    "total" (Some "asc")) Hsel H1 H2).
  reflexivity.
Defined.

Lemma direction_defaults_to_desc_witness :
  (None : option string) <> Some "asc"
  /\ map Orders.id (Array_sort (Orders.compareOrders "date" None) threeOrders)
     = ["gid://shopify/Order/3"; "gid://shopify/Order/2"; "gid://shopify/Order/1"].
Proof.
  assert (Hd : (None : option string) <> Some "asc") by discriminate.
  split; [exact Hd|].
  rewrite (proj1 (direction_defaults_to_desc threeOrders twoCustomers "date"
                    None Hd)).
  vm_compute. reflexivity.
Defined.

Lemma threeOrders_uniform :
  forall a b, In a threeOrders -> In b threeOrders ->
              uniform (Orders.sortValue "date" a) (Orders.sortValue "date" b).
Proof.
  intros a b Ha Hb. right.
  assert (Hnum : forall o, In o threeOrders ->
                           exists x, Orders.sortValue "date" o = SVnumber (Fin x)).
  { intros o Ho. simpl in Ho.
    destruct Ho as [<-|[<-|[<-|[]]]]; eexists; vm_compute; reflexivity. }
  destruct (Hnum a Ha) as [x Hx]. destruct (Hnum b Hb) as [y Hy].
  exists x, y. split; assumption.
Qed.

Lemma visible_rows_in_key_order_witness :
  sort_selection (Orders.sortSelected (dateQuery "" ["date asc"]))
  = Some ("date", Some "asc")
  /\ (forall a b, In a threeOrders -> In b threeOrders ->
                  uniform (Orders.sortValue "date" a) (Orders.sortValue "date" b))
  /\ StronglySorted
       (fun a b => inDirection (Some "asc") (Orders.sortValue "date" a)
                               (Orders.sortValue "date" b))
       (Orders.filteredOrders threeOrders (dateQuery "" ["date asc"])).
Proof.
  assert (Hsel : sort_selection (Orders.sortSelected (dateQuery "" ["date asc"]))
                 = Some ("date", Some "asc")) by reflexivity.
  split; [exact Hsel|]. split; [exact threeOrders_uniform|].
  exact (proj1 (visible_rows_in_key_order threeOrders (dateQuery "" ["date asc"])
                  twoCustomers totalSortQuery "date" (Some "asc"))
               Hsel threeOrders_uniform).
Defined.

Lemma threeOrders_ids : NoDup (map Orders.id threeOrders).
Proof.
  simpl. repeat constructor; simpl; intuition discriminate.
Qed.

Lemma visible_ids_stay_distinct_witness :
  NoDup (map Orders.id threeOrders)
  /\ NoDup (map Orders.id (Orders.filteredOrders threeOrders busyQuery)).
Proof.
  split; [exact threeOrders_ids|].
  exact (proj1 (visible_ids_stay_distinct threeOrders busyQuery
                  twoCustomers totalSortQuery) threeOrders_ids).
Defined.

Lemma order_windows_cover_fourteen_days_witness :
  exists d,
    StoreHealth.loader newYear2024 [twiceRefunded] recentOrders = Ok d
    /\ StoreHealth.ordersLast7d (StoreHealth.metrics d) = 1
    /\ StoreHealth.ordersPrev7d (StoreHealth.metrics d) = 2
    /\ StoreHealth.ordersLast7d (StoreHealth.metrics d)
       + StoreHealth.ordersPrev7d (StoreHealth.metrics d)
       <= Z.of_nat (List.length recentOrders).
Proof.
  destruct (StoreHealth.loader newYear2024 [twiceRefunded] recentOrders)
    as [d|m] eqn:E; [|vm_compute in E; discriminate].
  exists d. split; [reflexivity|].
  pose proof (order_windows_cover_fourteen_days _ _ _ _ E) as (_ & _ & Hle).
  vm_compute in E. injection E as <-.
  split; [reflexivity|]. split; [reflexivity|]. exact Hle.
Defined.

Lemma refund_rows_show_at_least_two_witness :
  exists d,
    StoreHealth.loader newYear2024 [twiceRefunded] recentOrders = Ok d
    /\ Forall (fun row => 2 <= StoreHealth.refunds row)
              (StoreHealth.refundHeavy (StoreHealth.lists d)).
Proof.
  destruct (StoreHealth.loader newYear2024 [twiceRefunded] recentOrders)
    as [d|m] eqn:E; [|vm_compute in E; discriminate].
  exists d. split; [reflexivity|].
  exact (proj2 (refund_rows_show_at_least_two _ _ _ _ E)).
Defined.

Lemma inactive_count_grows_with_time_witness :
  exists d1 d2,
    newYear2024 <= june2024
    /\ StoreHealth.loader newYear2024 [decemberBuyer] [] = Ok d1
    /\ StoreHealth.loader june2024 [decemberBuyer] [] = Ok d2
    /\ StoreHealth.inactiveCount90 (StoreHealth.metrics d1)
       <= StoreHealth.inactiveCount90 (StoreHealth.metrics d2).
Proof.
  assert (Hle : newYear2024 <= june2024) by (unfold newYear2024, june2024; lia).
  destruct (StoreHealth.loader newYear2024 [decemberBuyer] [])
    as [d1|m] eqn:E1; [|vm_compute in E1; discriminate].
  destruct (StoreHealth.loader june2024 [decemberBuyer] [])
    as [d2|m] eqn:E2; [|vm_compute in E2; discriminate].
  exists d1, d2. split; [exact Hle|]. split; [reflexivity|].
  split; [reflexivity|].
  exact (proj1 (inactive_count_grows_with_time _ _ _ _ _ _ Hle E1 E2)).
Defined.

End MoreReferenceRuns.

(** * The statistics in integers *)

Lemma count_le_length {A : Type} (p : A -> bool) (l : list A) :
  0 <= count p l <= Z.of_nat (List.length l).
Proof.
  unfold count. split; [lia|]. apply inj_le. apply filter_length_le.
Qed.

Lemma ratio_above_tenth (c : Z) (p : positive) :
  (1 # 10 < inject_Z c / inject_Z (Z.pos p))%Q <-> Z.pos p < 10 * c.
Proof.
  unfold Qlt, Qdiv, Qmult, Qinv, inject_Z.
  cbn [Qnum Qden]. rewrite Pos.mul_1_l. lia.
Qed.

(** X18.  The statistics of every order batch: cancelled and pending lie
    between 0 and total, and highRisk is set exactly when ten times the
    cancelled count exceeds the total, so never on a batch without a
    cancelled order and never on the empty batch. *)
Theorem high_risk_in_integers :
  forall orders : list Orders.Order,
    0 <= Orders.cancelled (Orders.stats orders) <= Orders.total (Orders.stats orders)
    /\ 0 <= Orders.pending (Orders.stats orders) <= Orders.total (Orders.stats orders)
    /\ (Orders.highRisk (Orders.stats orders) = true
        <-> Orders.total (Orders.stats orders)
            < 10 * Orders.cancelled (Orders.stats orders)).
Proof.
  intro orders. unfold Orders.stats.
  cbn [Orders.total Orders.cancelled Orders.pending Orders.highRisk].
  pose proof (count_le_length Orders.isCancelled orders) as Hc.
  pose proof (count_le_length Orders.isPending orders) as Hp.
  split; [exact Hc|]. split; [exact Hp|].
  destruct (Z.of_nat (List.length orders)) as [|t|t] eqn:Et; try lia.
  - assert (Hz : count Orders.isCancelled orders = 0) by lia.
    rewrite Hz. simpl. split; [discriminate | lia].
  - rewrite highRisk_of_counts by lia. apply ratio_above_tenth.
Qed.

(** * Turning the direction round *)

Lemma StronglySorted_app {A : Type} (R : A -> A -> Prop) (l1 l2 : list A) :
  StronglySorted R l1 -> StronglySorted R l2 ->
  (forall a b, In a l1 -> In b l2 -> R a b) ->
  StronglySorted R (l1 ++ l2).
Proof.
  intros H1 H2 Hcross. induction H1 as [|x l1 H1 IH Hx]; simpl; [exact H2|].
  constructor.
  - apply IH. intros a b Ha Hb. apply Hcross; [right; exact Ha | exact Hb].
  - apply Forall_app. split; [exact Hx|].
    apply Forall_forall. intros b Hb. apply Hcross; [left; reflexivity | exact Hb].
Qed.

Section Reversal.
Context {A : Type} (R : A -> A -> Prop).

Lemma StronglySorted_rev (l : list A) :
  StronglySorted R l -> StronglySorted (fun a b => R b a) (rev l).
Proof.
  induction 1 as [|x l Hs IH Hx]; simpl; [constructor|].
  apply StronglySorted_app.
  - exact IH.
  - repeat constructor.
  - intros a b Ha [<-|[]]. rewrite Forall_forall in Hx.
    apply Hx. apply in_rev. exact Ha.
Qed.

(** Two sorted arrangements of the same elements are the same list when
    [R] holds both ways only between equal elements. *)
Lemma sorted_perm_unique (l1 l2 : list A) :
  (forall a b, In a l1 -> In b l1 -> R a b -> R b a -> a = b) ->
  StronglySorted R l1 -> StronglySorted R l2 -> Permutation l1 l2 ->
  l1 = l2.
Proof.
  intros Hanti H1. revert l2.
  induction H1 as [|x l1 H1 IH Hx]; intros l2 H2 Hperm.
  - apply Permutation_nil in Hperm. congruence.
  - destruct l2 as [|y l2].
    { apply Permutation_sym, Permutation_nil in Hperm. discriminate. }
    inversion H2 as [|? ? H2' Hy]; subst.
    assert (Exy : x = y).
    { assert (Hxin : In x (y :: l2))
        by (apply (Permutation_in _ Hperm); left; reflexivity).
      assert (Hyin : In y (x :: l1))
        by (apply (Permutation_in _ (Permutation_sym Hperm)); left; reflexivity).
      destruct Hxin as [->|Hxin]; [reflexivity|].
      destruct Hyin as [->|Hyin]; [reflexivity|].
      rewrite Forall_forall in Hx, Hy.
      apply Hanti; [left; reflexivity | right; exact Hyin | apply Hx, Hyin
                   | apply Hy, Hxin]. }
    subst y. f_equal. apply IH.
    + intros a b Ha Hb. apply Hanti; right; assumption.
    + exact H2'.
    + exact (Permutation_cons_inv Hperm).
Qed.

End Reversal.

Section DirectionReversal.
Context `{Host}.

Lemma tie_is_same (v w : sortval) :
  uniform v w -> js_lt v w = false -> js_lt w v = false ->
  sortval_same v w = true.
Proof.
  intros [(s & t & -> & ->) | (x & y & -> & ->)]; simpl.
  - intros Hst Hts. apply String.eqb_eq. apply string_ltb_total; assumption.
  - intros Hxy Hyx. apply Qeq_bool_iff.
    unfold Qlt_bool in *. rewrite negb_false_iff in *.
    apply Qle_bool_iff in Hxy. apply Qle_bool_iff in Hyx.
    apply Qle_antisym; assumption.
Qed.

Lemma desc_is_reverse_of_asc {A : Type} (proj : A -> sortval) (l : list A) :
  (forall a b, In a l -> In b l -> uniform (proj a) (proj b)) ->
  (forall a b, In a l -> In b l ->
               sortval_same (proj a) (proj b) = true -> a = b) ->
  Array_sort (fun a b => three_way (Some "desc") (proj a) (proj b)) l
  = rev (Array_sort (fun a b => three_way (Some "asc") (proj a) (proj b)) l).
Proof.
  intros Huni Hinj.
  pose proof (sorted_by_projection proj (Some "desc") l (fun _ => true) Huni)
    as Hdesc.
  pose proof (sorted_by_projection proj (Some "asc") l (fun _ => true) Huni)
    as Hasc.
  rewrite (filter_all (fun _ => true) l) in Hdesc, Hasc
    by (apply Forall_forall; reflexivity).
  apply StronglySorted_rev in Hasc.
  set (desc := Array_sort (fun a b => three_way (Some "desc") (proj a) (proj b)) l)
    in *.
  set (asc := Array_sort (fun a b => three_way (Some "asc") (proj a) (proj b)) l)
    in *.
  assert (Hpd : Permutation desc l) by apply Array_sort_perm.
  assert (Hpa : Permutation asc l) by apply Array_sort_perm.
  apply (sorted_perm_unique
           (fun a b => inDirection (Some "desc") (proj a) (proj b))).
  - intros a b Ha Hb Hab Hba. unfold inDirection in Hab, Hba. simpl in Hab, Hba.
    apply (Permutation_in _ Hpd) in Ha, Hb.
    apply Hinj; try assumption. apply tie_is_same; auto.
  - exact Hdesc.
  - exact Hasc.
  - eapply perm_trans; [exact Hpd|].
    eapply perm_trans; [apply Permutation_sym; exact Hpa|].
    apply Permutation_rev.
Qed.

(** X19.  On rows whose sort keys are all strings or all proper numbers and
    pairwise different, sorting desc gives the reverse of sorting asc: the
    table turned upside down. *)
Theorem desc_reverses_asc :
  forall (orders : list Orders.Order) (customers : list Customers.Customer)
         (k : string),
    ((forall a b, In a orders -> In b orders ->
                  uniform (Orders.sortValue k a) (Orders.sortValue k b)) ->
     (forall a b, In a orders -> In b orders ->
                  sortval_same (Orders.sortValue k a) (Orders.sortValue k b) = true ->
                  a = b) ->
     Array_sort (Orders.compareOrders k (Some "desc")) orders
     = rev (Array_sort (Orders.compareOrders k (Some "asc")) orders))
    /\ ((forall a b, In a customers -> In b customers ->
                     uniform (Customers.sortValue k a) (Customers.sortValue k b)) ->
        (forall a b, In a customers -> In b customers ->
                     sortval_same (Customers.sortValue k a)
                                  (Customers.sortValue k b) = true ->
                     a = b) ->
        Array_sort (Customers.compareCustomers k (Some "desc")) customers
        = rev (Array_sort (Customers.compareCustomers k (Some "asc")) customers)).
Proof.
  intros orders customers k. split; intros Huni Hinj.
  - apply (desc_is_reverse_of_asc (Orders.sortValue k) orders Huni Hinj).
  - apply (desc_is_reverse_of_asc (Customers.sortValue k) customers Huni Hinj).
Qed.

End DirectionReversal.

Section ReversalRun.
Import ReferenceHost.

Lemma threeOrders_dates_differ :
  forall a b, In a threeOrders -> In b threeOrders ->
              sortval_same (Orders.sortValue "date" a) (Orders.sortValue "date" b)
              = true ->
              a = b.
Proof.
  intros a b Ha Hb. simpl in Ha, Hb.
  destruct Ha as [<-|[<-|[<-|[]]]]; destruct Hb as [<-|[<-|[<-|[]]]];
    intro Hsame; try reflexivity; vm_compute in Hsame; discriminate.
Qed.

Lemma desc_reverses_asc_witness :
  (forall a b, In a threeOrders -> In b threeOrders ->
               uniform (Orders.sortValue "date" a) (Orders.sortValue "date" b))
  /\ (forall a b, In a threeOrders -> In b threeOrders ->
                  sortval_same (Orders.sortValue "date" a)
                               (Orders.sortValue "date" b) = true ->
                  a = b)
  /\ Array_sort (Orders.compareOrders "date" (Some "desc")) threeOrders
     = rev (Array_sort (Orders.compareOrders "date" (Some "asc")) threeOrders).
Proof.
  split; [exact threeOrders_uniform|]. split; [exact threeOrders_dates_differ|].
  exact (proj1 (desc_reverses_asc threeOrders twoCustomers "date")
               threeOrders_uniform threeOrders_dates_differ).
Defined.

End ReversalRun.

(** * Tied rows on the reference host *)

Section TiedRows.
Import ReferenceHost.

Lemma threeOrders_totals_uniform :
  forall a b, In a threeOrders -> In b threeOrders ->
              uniform (orderProjection (dateQuery "" ["total asc"]) a)
                      (orderProjection (dateQuery "" ["total asc"]) b).
Proof.
  assert (Hnum : forall o, In o threeOrders ->
                   exists x, orderProjection (dateQuery "" ["total asc"]) o
                             = SVnumber (Fin x)).
  { intros o Ho. simpl in Ho.
    destruct Ho as [<-|[<-|[<-|[]]]]; eexists; vm_compute; reflexivity. }
  intros a b Ha Hb. right.
  destruct (Hnum a Ha) as [x Hx]. destruct (Hnum b Hb) as [y Hy].
  exists x, y. split; assumption.
Qed.

Lemma sameDayCustomers_uniform :
  forall a b, In a sameDayCustomers -> In b sameDayCustomers ->
              uniform (customerProjection (countQuery "") a)
                      (customerProjection (countQuery "") b).
Proof.
  assert (Hnum : forall c, In c sameDayCustomers ->
                   exists x, customerProjection (countQuery "") c
                             = SVnumber (Fin x)).
  { intros c Hc. simpl in Hc.
    destruct Hc as [<-|[<-|[]]]; eexists; vm_compute; reflexivity. }
  intros a b Ha Hb. right.
  destruct (Hnum a Ha) as [x Hx]. destruct (Hnum b Hb) as [y Hy].
  exists x, y. split; assumption.
Qed.

(** Three orders of one and the same total sorted by total, and two
    customers created at the same instant sorted by date: the rows stay as
    the batch has them. *)
Lemma sort_keeps_order_of_ties_witness :
  (forall a b, In a threeOrders -> In b threeOrders ->
               uniform (orderProjection (dateQuery "" ["total asc"]) a)
                       (orderProjection (dateQuery "" ["total asc"]) b))
  /\ (forall a b, In a sameDayCustomers -> In b sameDayCustomers ->
                  uniform (customerProjection (countQuery "") a)
                          (customerProjection (countQuery "") b))
  /\ filter (fun o => sortval_same (orderProjection (dateQuery "" ["total asc"]) o)
                                   (SVnumber (Fin (199 # 10))))
            (Orders.visibleRows
               (Orders.apply threeOrders (dateQuery "" ["total asc"])))
     = threeOrders
  /\ filter (fun c => sortval_same (customerProjection (countQuery "") c)
                                   (customerProjection (countQuery "")
                                                       (listedCustomer None)))
            (Customers.visibleRows
               (Customers.apply sameDayCustomers (countQuery "")))
     = sameDayCustomers.
Proof.
  split; [exact threeOrders_totals_uniform|].
  split; [exact sameDayCustomers_uniform|].
  split.
  - etransitivity.
    + exact (proj1 (sort_keeps_order_of_ties
                      threeOrders (dateQuery "" ["total asc"])
                      sameDayCustomers (countQuery "")
                      (SVnumber (Fin (199 # 10))))
                   threeOrders_totals_uniform).
    + vm_compute. reflexivity.
  - etransitivity.
    + exact (proj2 (sort_keeps_order_of_ties
                      threeOrders (dateQuery "" ["total asc"])
                      sameDayCustomers (countQuery "")
                      (customerProjection (countQuery "") (listedCustomer None)))
                   sameDayCustomers_uniform).
    + vm_compute. reflexivity.
Defined.

End TiedRows.
